(** * Booklite RAG utilities: chunking, indexing and context packing

    A shallow embedding of [tools/rag/index_specs.py],
    [tools/rag/index_specs_lite.py], [tools/rag/query_specs.py] and
    [tools/rag/query_specs_lite.py], together with the properties of the
    chunkers, the indexers and the query services.

    Python integers are [Z]; Python strings are [string], one [ascii] per
    character (so the model covers texts over the code points 0..255);
    Python exceptions are the [Raise] results of [Py.result].  The
    tokenizer, the vector store, the TF-IDF vectorizer, the markdown
    renderer and the float formatting are external collaborators: they are
    the fields of the interfaces [Encoding], [Markdown], [Floats],
    [VectorStore] and [Tfidf]. *)

From Stdlib Require Import ZArith Ascii String DecimalString DecimalZ.
From stdpp Require Import base list strings sorting.

Local Open Scope Z_scope.

(** ** Python primitives *)

Module Py.

Inductive exn : Set :=
| ValueError
| TypeError
| IndexError
| OSError.

Inductive result (A : Type) : Type :=
| Ok (a : A)
| Raise (e : exn).
Global Arguments Ok {A} a.
Global Arguments Raise {A} e.

Definition bind {A B} (f : A -> result B) (m : result A) : result B :=
  match m with
  | Ok a => f a
  | Raise e => Raise e
  end.

(** [len(l)] *)
Definition len {A} (l : list A) : Z := Z.of_nat (length l).

(** [len(range(start, stop, step))] for [step <> 0]. *)
Definition range_len (start stop step : Z) : Z :=
  if 0 <? step then
    if start <? stop then (stop - start - 1) / step + 1 else 0
  else
    if stop <? start then (start - stop - 1) / (- step) + 1 else 0.

(** [range(start, stop, step)]: a zero step is a [ValueError]. *)
Definition range (start stop step : Z) : result (list Z) :=
  if step =? 0 then Raise ValueError
  else Ok ((fun k : nat => start + Z.of_nat k * step)
           <$> seq 0 (Z.to_nat (range_len start stop step))).

(** Clamping of a slice bound: a negative bound counts from the end. *)
Definition slice_bound (n i : Z) : Z :=
  if i <? 0 then Z.max (i + n) 0 else Z.min i n.

(** [l[lo:hi]] *)
Definition slice {A} (l : list A) (lo hi : Z) : list A :=
  let a := slice_bound (len l) lo in
  let b := slice_bound (len l) hi in
  take (Z.to_nat (b - a)) (drop (Z.to_nat a) l).

(** [l[:hi]] *)
Definition slice_to {A} (l : list A) (hi : Z) : list A := slice l 0 hi.

(** [l[i]] for an index [i] that is not negative. *)
Definition index {A} (l : list A) (i : nat) : result A :=
  match l !! i with
  | Some x => Ok x
  | None => Raise IndexError
  end.

(** *** Strings *)

Definition LF : string := String "010" EmptyString.

(** [len(s)] *)
Definition str_len (s : string) : Z := Z.of_nat (String.length s).

(** Truth value of a string: the empty string is false. *)
Definition nonempty (s : string) : bool :=
  match s with
  | EmptyString => false
  | String _ _ => true
  end.

(** [c.isspace()], for the code points below 256. *)
Definition isspace (c : ascii) : bool :=
  let n := nat_of_ascii c in
  ((9 <=? n) && (n <=? 13) || (28 <=? n) && (n <=? 32)
   || (n =? 133) || (n =? 160))%nat.

Fixpoint lstrip (s : string) : string :=
  match s with
  | EmptyString => EmptyString
  | String c s' => if isspace c then lstrip s' else s
  end.

Fixpoint rstrip (s : string) : string :=
  match s with
  | EmptyString => EmptyString
  | String c s' =>
      match rstrip s' with
      | EmptyString => if isspace c then EmptyString else String c EmptyString
      | r => String c r
      end
  end.

(** [s.strip()] *)
Definition strip (s : string) : string := lstrip (rstrip s).

(** The scan of [s.split(sep)]: [cur] is the piece being read and [skip]
    counts the characters of a separator still to be passed over. *)
Fixpoint split_from (sep : string) (skip : nat) (cur s : string) : list string :=
  match s with
  | EmptyString => [cur]
  | String c s' =>
      match skip with
      | S k => split_from sep k cur s'
      | O =>
          if String.prefix sep s
          then cur :: split_from sep (String.length sep - 1) EmptyString s'
          else split_from sep O (cur +:+ String c EmptyString) s'
      end
  end.

(** [s.split(sep)] for a separator that is not empty. *)
Definition split (s sep : string) : list string :=
  split_from sep O EmptyString s.

Fixpoint words_from (cur s : string) : list string :=
  match s with
  | EmptyString => if nonempty cur then [cur] else []
  | String c s' =>
      if isspace c
      then (if nonempty cur then cur :: words_from EmptyString s'
            else words_from EmptyString s')
      else words_from (cur +:+ String c EmptyString) s'
  end.

(** [s.split()]: the maximal runs of characters that are not whitespace. *)
Definition split_ws (s : string) : list string := words_from EmptyString s.

(** [sep.join(l)] *)
Definition join (sep : string) (l : list string) : string := String.concat sep l.

(** [sub in s] *)
Fixpoint contains (sub s : string) : bool :=
  String.prefix sub s
  || match s with
     | EmptyString => false
     | String _ s' => contains sub s'
     end.

(** [s[:n]] for [n] that is not negative. *)
Definition str_slice_to (s : string) (n : nat) : string := String.substring 0 n s.

(** [str(i)] *)
Definition str (i : Z) : string := NilEmpty.string_of_int (Z.to_int i).

(** [c * n]: the character repeated. *)
Fixpoint repeat_char (c : ascii) (n : nat) : string :=
  match n with
  | O => EmptyString
  | S k => String c (repeat_char c k)
  end.

End Py.

Global Instance result_bind : MBind Py.result := @Py.bind.
Global Instance result_ret : MRet Py.result := @Py.Ok.

Notation "'let*' x := m 'in' k" := (Py.bind (fun x => k) m)
  (at level 10, x pattern, m at level 100, k at level 200).

(** ** Documents, sections and chunk metadata *)

(** One entry of the [sections] list of a document. *)
Module Section_info.
Record t := {
  level : Z;
  title : string;
  content : string
}.
End Section_info.

(** The [metadata] dictionary built by [extract_markdown_content]. *)
Record doc_metadata := {
  file_path : string;
  file_name : string;
  file_size : Z;
  hash : string;
  title : string;
  sections : list Section_info.t
}.

(** The per-chunk copy of the document metadata, updated with the three
    chunk keys. *)
Record chunk_metadata := {
  doc : doc_metadata;
  chunk_index : Z;
  chunk_total : Z;
  chunk_preview : string
}.

(** A markdown file found under [specs_dir]: its path relative to
    [specs_dir], its name, and its text ([None] when reading it fails). *)
Record md_file := {
  relative_path : string;
  name : string;
  text : option string
}.

(** The markdown renderer with the HTML parser, and the MD5 digest.
    [headings] gives the [h1]..[h6] elements of the rendered document in
    document order, each with its level and its text. *)
Class Markdown := {
  headings : string -> list (Z * string);
  md5_hexdigest : string -> string
}.

(** Python floats: the comparison with zero, [1 - x] and the [:.2f]
    format. *)
Class Floats := {
  float : Type;
  float_pos : float -> bool;
  one_minus : float -> float;
  format_2f : float -> string
}.

(** The three extraction methods, which both indexers carry unchanged. *)
Module MarkdownParser.
Section extract.
Context `{Markdown}.

Definition _extract_title (soup : list (Z * string)) : string :=
  match List.find (fun element => fst element =? 1) soup with
  | Some h1 => Py.strip (snd h1)
  | None => "Untitled"
  end.

Fixpoint sections_loop (elements : list (Z * string))
    (sections : list Section_info.t) (current_section : option Section_info.t)
  : list Section_info.t * option Section_info.t :=
  match elements with
  | [] => (sections, current_section)
  | element :: rest =>
      let sections :=
        match current_section with
        | Some s => sections ++ [s]
        | None => sections
        end in
      sections_loop rest sections
        (Some {| Section_info.level := fst element;
                 Section_info.title := Py.strip (snd element);
                 Section_info.content := EmptyString |})
  end.

Definition _extract_sections (soup : list (Z * string)) : list Section_info.t :=
  let '(sections, current_section) := sections_loop soup [] None in
  match current_section with
  | Some s => sections ++ [s]
  | None => sections
  end.

(** The result keeps the [content] and the [metadata] entries. *)
Definition extract_markdown_content (file : md_file)
  : Py.result (string * doc_metadata) :=
  match text file with
  | None => Py.Raise Py.OSError
  | Some content =>
      let soup := headings content in
      Py.Ok (content,
            {| file_path := relative_path file;
               file_name := name file;
               file_size := Py.str_len content;
               hash := md5_hexdigest content;
               title := _extract_title soup;
               sections := _extract_sections soup |})
  end.

(** The metadata of chunk [i] of [chunks]. *)
Definition chunk_metadata_of (metadata : doc_metadata) (chunks : list string)
    (i : nat) (chunk : string) : chunk_metadata :=
  {| doc := metadata;
     chunk_index := Z.of_nat i;
     chunk_total := Py.len chunks;
     chunk_preview :=
       if 200 <? Py.str_len chunk
       then Py.str_slice_to chunk 200 +:+ "..."
       else chunk |}.

End extract.
End MarkdownParser.

(** ** The vector store ([chromadb]) and the sentence embedder *)

(** What [collection.query] returns: the first rows of the [ids],
    [documents] and [metadatas] entries, and of [distances] when the reply
    has that key. *)
Record query_hits `{Floats} := {
  hit_ids : list string;
  hit_documents : list string;
  hit_metadatas : list chunk_metadata;
  hit_distances : option (list float)
}.

(** [empty_collection] is the collection after [delete_collection] and
    [get_or_create_collection]; the last argument of [collection_query] is
    the substring of the [$contains] clause on [file_path], if any. *)
Class VectorStore `{Floats} := {
  collection : Type;
  embedding : Type;
  model_encode : list string -> list embedding;
  empty_collection : collection;
  collection_add :
    collection -> list string -> list chunk_metadata -> list string ->
    Py.result collection;
  collection_query :
    collection -> list embedding -> Z -> option string -> Py.result query_hits
}.

(** ** The TF-IDF vectorizer ([scikit-learn]) and [numpy.argsort] *)

(** [fit_transform] learns the vocabulary from the documents alone;
    [similarities] is [cosine_similarity(transform([query]), matrix)]
    flattened. *)
Class Tfidf `{Floats} := {
  vectorizer : Type;
  matrix : Type;
  new_vectorizer : vectorizer;
  fit_transform : list string -> Py.result (vectorizer * matrix);
  similarities : vectorizer -> option matrix -> string -> list float;
  argsort : list float -> list nat
}.

(** The size of the fitted vocabulary, [len(vectorizer.vocabulary_)]. *)
Class Vocabulary `{Tfidf} := {
  vocabulary_size : vectorizer -> Z
}.

(** ** The tokenizer ([tiktoken]'s [cl100k_base] encoding) *)

Class Encoding := {
  encode : string -> list Z;
  decode : list Z -> string
}.

(** ** [index_specs.py]: the embedding-backed indexer *)

Module SpecsIndexer.
Section chunking.
Context `{Encoding}.

(** The token windows [tokens[i:i + chunk_size]] taken by the loop of
    [chunk_content], before they are decoded. *)
Definition chunk_windows (tokens : list Z) (chunk_size overlap : Z)
  : Py.result (list (list Z)) :=
  let* offsets := Py.range 0 (Py.len tokens) (chunk_size - overlap) in
  Py.Ok ((fun i => Py.slice tokens i (i + chunk_size)) <$> offsets).

Definition chunk_content (content : string) (chunk_size overlap : Z)
  : Py.result (list string) :=
  let tokens := encode content in
  let* offsets := Py.range 0 (Py.len tokens) (chunk_size - overlap) in
  Py.Ok ((fun i => decode (Py.slice tokens i (i + chunk_size))) <$> offsets).

End chunking.

Section indexing.
Context `{Encoding, Markdown, VectorStore}.

(** The three lists handed to [collection.add] for one file. *)
Definition file_batch (metadata : doc_metadata) (chunks : list string)
  : list string * list chunk_metadata * list string :=
  (chunks,
   imap (MarkdownParser.chunk_metadata_of metadata chunks) chunks,
   imap (fun i _ => file_path metadata +:+ "_" +:+ Py.str (Z.of_nat i)) chunks).

Definition index_file (file : md_file) (self : collection)
  : Py.result collection :=
  let* doc_data := MarkdownParser.extract_markdown_content file in
  let* chunks := chunk_content (fst doc_data) 1000 200 in
  let embeddings := model_encode chunks in
  let '(documents, metadatas, ids) := file_batch (snd doc_data) chunks in
  collection_add self documents metadatas ids.

(** A file whose indexing raises is reported and skipped. *)
Definition index_all (md_files : list md_file) (self : collection) : collection :=
  let self := empty_collection in
  match md_files with
  | [] => self
  | _ =>
      foldl (fun self file =>
               match index_file file self with
               | Py.Ok self' => self'
               | Py.Raise _ => self
               end) self md_files
  end.

End indexing.
Section searching.
Context `{VectorStore}.

Record search_result := {
  result_id : string;
  result_content : string;
  result_metadata : chunk_metadata;
  distance : option float
}.

(** The result built for position [i] of the reply. *)
Definition result_at (results : query_hits) (i : nat) : Py.result search_result :=
  let* id := Py.index (hit_ids results) i in
  let* content := Py.index (hit_documents results) i in
  let* metadata := Py.index (hit_metadatas results) i in
  match hit_distances results with
  | Some distances =>
      let* d := Py.index distances i in
      Py.Ok {| result_id := id; result_content := content;
              result_metadata := metadata; distance := Some d |}
  | None =>
      Py.Ok {| result_id := id; result_content := content;
              result_metadata := metadata; distance := None |}
  end.

Definition search (self : collection) (query : string) (n_results : Z)
  : Py.result (list search_result) :=
  let query_embedding := model_encode [query] in
  let* results := collection_query self query_embedding n_results None in
  mapM (result_at results) (seq 0 (length (hit_ids results))).

End searching.
End SpecsIndexer.


(** ** [index_specs_lite.py]: the TF-IDF indexer *)

Module LiteSpecsIndexer.

(** The loop of [chunk_content] over the paragraphs, with the list
    [chunks] built so far and the running [current_chunk]. *)
Fixpoint chunk_loop (chunk_size : Z) (paragraphs : list string)
    (chunks : list string) (current_chunk : string)
  : Py.result (list string * string) :=
  match paragraphs with
  | [] => Py.Ok (chunks, current_chunk)
  | paragraph :: rest =>
      if Py.str_len current_chunk + Py.str_len paragraph + 2 <=? chunk_size then
        if Py.nonempty current_chunk
        then chunk_loop chunk_size rest chunks
               (current_chunk +:+ Py.LF +:+ Py.LF +:+ paragraph)
        else chunk_loop chunk_size rest chunks paragraph
      else
        if Py.nonempty current_chunk
        then chunk_loop chunk_size rest
               (chunks ++ [Py.strip current_chunk]) paragraph
        else
          let words := Py.split_ws paragraph in
          let* offsets := Py.range 0 (Py.len words) (chunk_size / 5) in
          chunk_loop chunk_size rest
            (chunks ++ ((fun i => Py.join " " (Py.slice words i (i + chunk_size / 5)))
                        <$> offsets))
            current_chunk
  end.

Definition chunk_content (content : string) (chunk_size overlap : Z)
  : Py.result (list string) :=
  let paragraphs := Py.split content (Py.LF +:+ Py.LF) in
  let* (chunks, current_chunk) := chunk_loop chunk_size paragraphs [] EmptyString in
  Py.Ok (if Py.nonempty current_chunk
        then chunks ++ [Py.strip current_chunk]
        else chunks).

Section indexing.
Context `{Markdown, Tfidf}.

(** The fields of the indexer that [save] pickles. *)
Record db_data := {
  documents : list string;
  metadata : list chunk_metadata;
  the_vectorizer : vectorizer;
  tfidf_matrix : option matrix;
  is_indexed : bool
}.

(** The indexer object, with the database file at [db_path] if it
    exists. *)
Record t := {
  db : db_data;
  db_file : option db_data
}.

(** [LiteSpecsIndexer(specs_dir, db_path)] *)
Definition init (db_file : option db_data) : t :=
  {| db := {| documents := []; metadata := [];
              the_vectorizer := new_vectorizer;
              tfidf_matrix := None; is_indexed := false |};
     db_file := db_file |}.

Definition with_chunks (documents : list string) (metadata : list chunk_metadata)
    (self : t) : t :=
  {| db := {| documents := documents; metadata := metadata;
              the_vectorizer := the_vectorizer (db self);
              tfidf_matrix := tfidf_matrix (db self);
              is_indexed := is_indexed (db self) |};
     db_file := db_file self |}.

Definition index_file (file : md_file) (self : t) : Py.result t :=
  let* doc_data := MarkdownParser.extract_markdown_content file in
  let* chunks := chunk_content (fst doc_data) 1000 200 in
  Py.Ok (with_chunks
          (documents (db self) ++ chunks)
          (metadata (db self)
             ++ imap (MarkdownParser.chunk_metadata_of (snd doc_data) chunks) chunks)
          self).

Definition save (self : t) : t :=
  {| db := db self; db_file := Some (db self) |}.

Definition load (self : t) : t :=
  match db_file self with
  | None => self
  | Some db_data => {| db := db_data; db_file := db_file self |}
  end.

(** The second component is [Raise] when [fit_transform] raises: that
    exception is not caught, and nothing is saved. *)
Definition index_all (md_files : list md_file) (self : t) : t * Py.result unit :=
  let self := with_chunks [] [] self in
  match md_files with
  | [] => (self, Py.Ok tt)
  | _ =>
      let self :=
        foldl (fun self file =>
                 match index_file file self with
                 | Py.Ok self' => self'
                 | Py.Raise _ => self
                 end) self md_files in
      match documents (db self) with
      | [] => (save self, Py.Ok tt)
      | _ =>
          match fit_transform (documents (db self)) with
          | Py.Raise e => (self, Py.Raise e)
          | Py.Ok (v, m) =>
              (save {| db := {| documents := documents (db self);
                                metadata := metadata (db self);
                                the_vectorizer := v;
                                tfidf_matrix := Some m;
                                is_indexed := true |};
                       db_file := db_file self |},
               Py.Ok tt)
          end
      end
  end.

Record search_result := {
  result_content : string;
  result_metadata : chunk_metadata;
  similarity_score : float;
  result_chunk_index : nat
}.

(** The loop of [search] over [top_indices]. *)
Fixpoint results_loop (self : t) (similarities : list float)
    (top_indices : list nat) (results : list search_result)
  : Py.result (list search_result) :=
  match top_indices with
  | [] => Py.Ok results
  | idx :: rest =>
      let* score := Py.index similarities idx in
      if float_pos score then
        let* content := Py.index (documents (db self)) idx in
        let* metadata := Py.index (metadata (db self)) idx in
        results_loop self similarities rest
          (results ++ [{| result_content := content;
                          result_metadata := metadata;
                          similarity_score := score;
                          result_chunk_index := idx |}])
      else results_loop self similarities rest results
  end.

(** The first step of [search]: an indexer that is not indexed loads the
    database file. *)
Definition loaded (self : t) : t :=
  if is_indexed (db self) then self else load self.

Definition search (self : t) (query : string) (n_results : Z)
  : t * Py.result (list search_result) :=
  let self := loaded self in
  if negb (is_indexed (db self)) then (self, Py.Raise Py.ValueError)
  else
    let similarities :=
      similarities (the_vectorizer (db self)) (tfidf_matrix (db self)) query in
    let top_indices := Py.slice_to (rev (argsort similarities)) n_results in
    (self, results_loop self similarities top_indices []).

Definition context_header : list string :=
  ["CONTEXT FROM BOOKLITE SPECIFICATIONS:"; Py.repeat_char "=" 50].

Definition result_text (result : search_result) : string :=
  (Py.LF +:+ "--- From " +:+ file_path (doc (result_metadata result)) +:+ " ---" +:+ Py.LF)
  +:+ ("Section: " +:+ title (doc (result_metadata result)) +:+ Py.LF)
  +:+ ("Similarity: " +:+ format_2f (similarity_score result) +:+ Py.LF)
  +:+ ("Content:" +:+ Py.LF +:+ result_content result +:+ Py.LF).

(** The loop of [get_context_for_generation]; it returns the final
    [context_parts]. *)
Fixpoint context_loop (max_tokens : Z) (results : list search_result)
    (context_parts : list string) (current_chars : Z) : list string :=
  match results with
  | [] => context_parts
  | result :: rest =>
      let result_text := result_text result in
      if max_tokens <? current_chars + Py.str_len result_text then context_parts
      else context_loop max_tokens rest (context_parts ++ [result_text])
             (current_chars + Py.str_len result_text)
  end.

Definition get_context_for_generation (self : t) (query : string) (max_tokens : Z)
  : t * Py.result string :=
  let '(self, results) := search self query 10 in
  (self,
   let* results := results in
   let context_parts := context_header in
   let current_chars := Py.str_len (Py.join Py.LF context_parts) in
   Py.Ok (Py.join Py.LF (context_loop max_tokens results context_parts current_chars))).

End indexing.
Section statistics.
Context `{Floats} `{!Tfidf} `{!Vocabulary}.

Record statistics := {
  total_chunks : Z;
  indexed_files : Z;
  vectorizer_features : Z;
  stats_is_indexed : bool
}.

Definition get_statistics (self : t) : statistics :=
  {| total_chunks := Py.len (documents (db self));
     indexed_files :=
       Py.len (remove_dups ((fun meta => file_path (doc meta)) <$> metadata (db self)));
     vectorizer_features :=
       if is_indexed (db self) then vocabulary_size (the_vectorizer (db self)) else 0;
     stats_is_indexed := is_indexed (db self) |}.

End statistics.
End LiteSpecsIndexer.

(** ** [query_specs_lite.py]: queries over the TF-IDF index *)

Module LiteSpecsQuery.
Section query.
Context `{Markdown, Tfidf}.

(** The query object holds its own indexer. *)
Record t := { indexer : LiteSpecsIndexer.t }.

(** [LiteSpecsQuery(db_path)] *)
Definition init (db_file : option LiteSpecsIndexer.db_data) : Py.result t :=
  match db_file with
  | None => Py.Raise Py.OSError
  | Some _ =>
      let indexer := LiteSpecsIndexer.load (LiteSpecsIndexer.init db_file) in
      if LiteSpecsIndexer.is_indexed (LiteSpecsIndexer.db indexer)
      then Py.Ok {| indexer := indexer |}
      else Py.Raise Py.ValueError
  end.

Definition search (self : t) (query : string) (n_results : Z)
    (file_filter : option string)
  : t * Py.result (list LiteSpecsIndexer.search_result) :=
  let '(indexer, results) := LiteSpecsIndexer.search (indexer self) query n_results in
  ({| indexer := indexer |},
   let* results := results in
   match file_filter with
   | Some file_filter =>
       if Py.nonempty file_filter
       then Py.Ok (List.filter
                    (fun r => Py.contains file_filter
                                (file_path (doc (LiteSpecsIndexer.result_metadata r))))
                    results)
       else Py.Ok results
   | None => Py.Ok results
   end).

Definition get_context_for_generation (self : t) (query : string) (max_tokens : Z)
  : t * Py.result string :=
  let '(indexer, context) :=
    LiteSpecsIndexer.get_context_for_generation (indexer self) query max_tokens in
  ({| indexer := indexer |}, context).

End query.
Section summaries.
Context `{Floats} `{!Tfidf} `{!Vocabulary}.

(** What [get_file_summary] returns: the dictionary with the [error] key,
    or the one with the four summary keys. *)
Inductive file_summary : Type :=
| SummaryError (error : string)
| Summary (file_path : string) (total_chunks : Z) (sections : list string)
    (content_preview : string).

(** The [sections] dictionary, in insertion order: a title that is not a
    key yet is added with the empty list, then the preview is appended to
    the list of the title. *)
Fixpoint sections_add (title preview : string)
    (sections : list (string * list string)) : list (string * list string) :=
  match sections with
  | [] => [(title, [preview])]
  | entry :: rest =>
      if String.eqb (fst entry) title
      then (fst entry, snd entry ++ [preview]) :: rest
      else entry :: sections_add title preview rest
  end.

(** The loop of [get_file_summary] over [filtered_results]. *)
Fixpoint summary_loop (filtered_results : list chunk_metadata)
    (sections : list (string * list string)) (total_chunks : Z)
  : list (string * list string) * Z :=
  match filtered_results with
  | [] => (sections, total_chunks)
  | meta :: rest =>
      summary_loop rest
        (sections_add (title (doc meta)) (chunk_preview meta) sections)
        (total_chunks + 1)
  end.

Definition get_file_summary (self : t) (path : string) : file_summary :=
  let indexer := indexer self in
  let filtered_results :=
    List.filter (fun r => Py.contains path (file_path (doc r)))
      (LiteSpecsIndexer.metadata (LiteSpecsIndexer.db indexer)) in
  match filtered_results with
  | [] => SummaryError ("No content found for file: " +:+ path)
  | _ =>
      let '(sections, total_chunks) := summary_loop filtered_results [] 0 in
      let file_docs :=
        fst <$> List.filter (fun dm => Py.contains path (file_path (doc (snd dm))))
                  (zip (LiteSpecsIndexer.documents (LiteSpecsIndexer.db indexer))
                       (LiteSpecsIndexer.metadata (LiteSpecsIndexer.db indexer))) in
      let content_preview :=
        Py.join Py.LF
          ((fun doc => Py.str_slice_to doc 200 +:+ "...") <$> Py.slice_to file_docs 3) in
      Summary path total_chunks (fst <$> sections) content_preview
  end.

(** [sorted(list(set(...)))]: the distinct paths in ascending order. *)
Definition list_indexed_files (self : t) : list string :=
  merge_sort String.le
    (remove_dups ((fun meta => file_path (doc meta))
                  <$> LiteSpecsIndexer.metadata (LiteSpecsIndexer.db (indexer self)))).

Definition get_statistics (self : t) : LiteSpecsIndexer.statistics :=
  LiteSpecsIndexer.get_statistics (indexer self).

End summaries.
End LiteSpecsQuery.

(** ** [query_specs.py]: queries over the vector store *)

Module SpecsQuery.
Section query.
Context `{Encoding, VectorStore}.

Record search_result := {
  result_id : string;
  result_content : string;
  result_metadata : chunk_metadata;
  distance : option float;
  relevance_score : option float
}.

(** The result built for position [i] of the reply. *)
Definition result_at (results : query_hits) (i : nat) : Py.result search_result :=
  let* id := Py.index (hit_ids results) i in
  let* content := Py.index (hit_documents results) i in
  let* metadata := Py.index (hit_metadatas results) i in
  match hit_distances results with
  | Some distances =>
      let* d := Py.index distances i in
      Py.Ok {| result_id := id; result_content := content;
              result_metadata := metadata;
              distance := Some d; relevance_score := Some (one_minus d) |}
  | None =>
      Py.Ok {| result_id := id; result_content := content;
              result_metadata := metadata;
              distance := None; relevance_score := None |}
  end.

Definition search (self : collection) (query : string) (n_results : Z)
    (file_filter : option string) : Py.result (list search_result) :=
  let query_embedding := model_encode [query] in
  let where_clause :=
    match file_filter with
    | Some file_filter => if Py.nonempty file_filter then Some file_filter else None
    | None => None
    end in
  let* results := collection_query self query_embedding n_results where_clause in
  mapM (result_at results) (seq 0 (length (hit_ids results))).

Definition context_header : list string :=
  ["CONTEXT FROM BOOKLITE SPECIFICATIONS:"; Py.repeat_char "=" 50].

(** Formatting a missing relevance score with [:.2f] is a [TypeError]. *)
Definition result_text (result : search_result) : Py.result string :=
  match relevance_score result with
  | None => Py.Raise Py.TypeError
  | Some score =>
      Py.Ok ((Py.LF +:+ "--- From " +:+ file_path (doc (result_metadata result))
               +:+ " ---" +:+ Py.LF)
            +:+ ("Section: " +:+ title (doc (result_metadata result)) +:+ Py.LF)
            +:+ ("Relevance: " +:+ format_2f score +:+ Py.LF)
            +:+ ("Content:" +:+ Py.LF +:+ result_content result +:+ Py.LF))
  end.

(** [len(self.encoding.encode(s))] *)
Definition token_len (s : string) : Z := Py.len (encode s).

Fixpoint context_loop (max_tokens : Z) (results : list search_result)
    (context_parts : list string) (current_tokens : Z) : Py.result (list string) :=
  match results with
  | [] => Py.Ok context_parts
  | result :: rest =>
      let* result_text := result_text result in
      let result_tokens := token_len result_text in
      if max_tokens <? current_tokens + result_tokens then Py.Ok context_parts
      else context_loop max_tokens rest (context_parts ++ [result_text])
             (current_tokens + result_tokens)
  end.

Definition get_context_for_generation (self : collection) (query : string)
    (max_tokens : Z) : Py.result string :=
  let* results := search self query 10 None in
  let context_parts := context_header in
  let current_tokens := token_len (Py.join Py.LF context_parts) in
  let* context_parts := context_loop max_tokens results context_parts current_tokens in
  Py.Ok (Py.join Py.LF context_parts).

End query.
End SpecsQuery.


(** ** Small concrete collaborators

    They instantiate the interfaces where a statement is run on an
    example. *)

Module Fixtures.

(** One token per character. *)
Definition char_encoding : Encoding :=
  {| encode s := (fun c => Z.of_nat (nat_of_ascii c)) <$> list_ascii_of_string s;
     decode ts := string_of_list_ascii ((fun t => ascii_of_nat (Z.to_nat t)) <$> ts) |}.

(** A renderer that finds no heading. *)
Definition no_headings : Markdown :=
  {| headings _ := []; md5_hexdigest s := s |}.

(** Scores counted in hundredths. *)
Definition centi : Floats :=
  {| float := Z;
     float_pos x := 0 <? x;
     one_minus x := 100 - x;
     format_2f x :=
       Py.str (x / 100) +:+ "." +:+ Py.str (x mod 100 / 10) +:+ Py.str (x mod 10) |}.

(** A store that keeps the submitted triples in order and ranks them in
    that order.  A [where] condition selects nothing: the paths it keeps
    are strings, and the store looks for the operand of [$contains] among
    the elements of a list-valued field only. *)
Definition list_store : @VectorStore centi :=
  {| collection := list (string * string * chunk_metadata);
     embedding := string;
     model_encode := id;
     empty_collection := [];
     collection_add c documents metadatas ids :=
       if ((length documents =? length ids)%nat
           && (length metadatas =? length ids)%nat
           && negb (length ids =? 0)%nat)
       then Py.Ok (c ++ zip (zip ids documents) metadatas)
       else Py.Raise Py.ValueError;
     collection_query c _ n_results where_clause :=
       if n_results <=? 0 then Py.Raise Py.ValueError
       else
         let matching :=
           match where_clause with
           | Some _ => []
           | None => c
           end in
         let top := take (Z.to_nat n_results) matching in
         Py.Ok {| hit_ids := (fun e => fst (fst e)) <$> top;
                  hit_documents := (fun e => snd (fst e)) <$> top;
                  hit_metadatas := snd <$> top;
                  hit_distances :=
                    Some (imap (fun i _ => (10 * Z.of_nat i : @float centi)) top) |} |}.

(** Insertion before the first key that is not smaller: equal keys keep
    the order of their positions. *)
Fixpoint insert_by_key (x : Z * nat) (l : list (Z * nat)) : list (Z * nat) :=
  match l with
  | [] => [x]
  | y :: l' => if fst x <=? fst y then x :: l else y :: insert_by_key x l'
  end.

(** The score of a document is ten hundredths per query word that occurs
    in it; [argsort] is ascending and stable. *)
Definition word_overlap : @Tfidf centi :=
  {| vectorizer := unit;
     matrix := list string;
     new_vectorizer := tt;
     fit_transform docs := Py.Ok (tt, docs);
     similarities _ m query :=
       match m with
       | Some docs =>
           (fun d => (10 * Py.len (List.filter (fun w => Py.contains w d)
                                               (Py.split_ws query))
                      : @float centi)) <$> docs
       | None => []
       end;
     argsort (xs : list (@float centi)) :=
       snd <$> foldr insert_by_key [] (imap (fun i x => (x, i)) xs) |}.

Definition plain_metadata (path : string) : chunk_metadata :=
  {| doc := {| file_path := path; file_name := path; file_size := 0;
               hash := EmptyString; title := "Untitled"; sections := [] |};
     chunk_index := 0; chunk_total := 1; chunk_preview := EmptyString |}.

(** Two one-chunk files, and the TF-IDF indexer built from them. *)
Definition two_files : list md_file :=
  [ {| relative_path := "a/x.md"; name := "x.md"; text := Some "alpha beta" |};
    {| relative_path := "b/y.md"; name := "y.md"; text := Some "alpha gamma" |} ].

Definition lite_indexer : @LiteSpecsIndexer.t centi word_overlap :=
  fst (@LiteSpecsIndexer.index_all no_headings centi word_overlap two_files
         (LiteSpecsIndexer.init None)).

Definition lite_query : @LiteSpecsQuery.t centi word_overlap :=
  {| LiteSpecsQuery.indexer := lite_indexer |}.

(** Two files of 900 and 1700 characters: two and three chunks. *)
Definition five_chunk_files : list md_file :=
  [ {| relative_path := "a/x.md"; name := "x.md";
       text := Some (Py.repeat_char "a" 900) |};
    {| relative_path := "b/y.md"; name := "y.md";
       text := Some (Py.repeat_char "b" 1700) |} ].

(** A stored collection whose best match lies under [b/]. *)
Definition two_entries : @collection centi list_store :=
  [ ("b/y.md_0", "alpha gamma", plain_metadata "b/y.md");
    ("a/x.md_0", "alpha beta", plain_metadata "a/x.md") ].


(** A vocabulary of one feature per document. *)
Definition document_vocabulary : @Vocabulary centi word_overlap :=
  {| vocabulary_size _ := 2 |}.

(** The store of [list_store] with replies that carry no distances. *)
Definition bare_store : @VectorStore centi :=
  {| collection := list (string * string * chunk_metadata);
     embedding := string;
     model_encode := id;
     empty_collection := [];
     collection_add c documents metadatas ids :=
       Py.Ok (c ++ zip (zip ids documents) metadatas);
     collection_query c _ n_results where_clause :=
       let top := take (Z.to_nat n_results) c in
       Py.Ok {| hit_ids := (fun e => fst (fst e)) <$> top;
                hit_documents := (fun e => snd (fst e)) <$> top;
                hit_metadatas := snd <$> top;
                hit_distances := None |} |}.

(** A file without text, and a file that cannot be read. *)
Definition empty_file : md_file :=
  {| relative_path := "e.md"; name := "e.md"; text := Some EmptyString |}.

Definition unreadable_file : md_file :=
  {| relative_path := "u.md"; name := "u.md"; text := None |}.

(** The entries of [two_entries] in the store without distances. *)
Definition bare_entries : @collection centi bare_store :=
  [ ("b/y.md_0", "alpha gamma", plain_metadata "b/y.md");
    ("a/x.md_0", "alpha beta", plain_metadata "a/x.md") ].

End Fixtures.

(** ** Statements used by the theorems *)

(** The windows put back together: the first window, then every later
    window without its first [overlap] tokens. *)
Definition merge_windows (overlap : Z) (windows : list (list Z)) : list Z :=
  match windows with
  | [] => []
  | w :: rest => w ++ concat (drop (Z.to_nat overlap) <$> rest)
  end.

(** The window at position [k]: [chunk_size] tokens from offset
    [k * (chunk_size - overlap)], cut at the end of the tokens. *)
Definition window_at (tokens : list Z) (chunk_size overlap : Z) (k : nat) : list Z :=
  take (Z.to_nat chunk_size) (drop (k * Z.to_nat (chunk_size - overlap)) tokens).

Definition window_count (tokens : list Z) (chunk_size overlap : Z) : nat :=
  Z.to_nat (Py.range_len 0 (Py.len tokens) (chunk_size - overlap)).

(** The number of leading blocks that the loop of
    [get_context_for_generation] appends when the counter starts at
    [current]: it stops at the first block that would pass the budget. *)
Fixpoint admitted (size : string -> Z) (budget current : Z) (blocks : list string) : nat :=
  match blocks with
  | [] => 0
  | b :: rest =>
      if budget <? current + size b then 0
      else S (admitted size budget (current + size b) rest)
  end.

Definition total_size (size : string -> Z) (blocks : list string) : Z :=
  foldr (fun b acc => size b + acc) 0 blocks.

(** What [join] adds after a list that is not empty. *)
Definition joined_tail (sep : string) (blocks : list string) : string :=
  foldr (fun b acc => sep +:+ b +:+ acc) EmptyString blocks.

(** The two header lines joined by a line feed. *)
Definition header_text : string :=
  "CONTEXT FROM BOOKLITE SPECIFICATIONS:" +:+ Py.LF
  +:+ "==================================================".

(** What [LiteSpecsIndexer.index_file] adds for one file: its chunks and
    their metadata, or nothing when indexing the file raises. *)
Definition file_chunks `{Markdown} (file : md_file) : list string * list chunk_metadata :=
  match MarkdownParser.extract_markdown_content file with
  | Py.Ok doc_data =>
      match LiteSpecsIndexer.chunk_content (fst doc_data) 1000 200 with
      | Py.Ok chunks =>
          (chunks, imap (MarkdownParser.chunk_metadata_of (snd doc_data) chunks) chunks)
      | Py.Raise _ => ([], [])
      end
  | Py.Raise _ => ([], [])
  end.

Definition corpus_documents `{Markdown} (md_files : list md_file) : list string :=
  concat ((fun file => fst (file_chunks file)) <$> md_files).

Definition corpus_metadata `{Markdown} (md_files : list md_file) : list chunk_metadata :=
  concat ((fun file => snd (file_chunks file)) <$> md_files).

Fixpoint has_char (c : ascii) (s : string) : bool :=
  match s with
  | EmptyString => false
  | String x s' => if ascii_dec x c then true else has_char c s'
  end.

(** The id given to chunk [i] of the file at [path]. *)
Definition chunk_id (path : string) (i : nat) : string :=
  path +:+ "_" +:+ Py.str (Z.of_nat i).

(** What [SpecsIndexer.index_file] leaves in the list store for one file. *)
Definition stored_entries `{Encoding} `{Markdown} (file : md_file)
  : list (string * string * chunk_metadata) :=
  match MarkdownParser.extract_markdown_content file with
  | Py.Ok doc_data =>
      match SpecsIndexer.chunk_content (fst doc_data) 1000 200 with
      | Py.Ok chunks =>
          imap (fun i chunk =>
                  (chunk_id (relative_path file) i, chunk,
                   MarkdownParser.chunk_metadata_of (snd doc_data) chunks i chunk))
            chunks
      | Py.Raise _ => []
      end
  | Py.Raise _ => []
  end.

Definition entry_id (e : string * string * chunk_metadata) : string := fst (fst e).

(** The batch that a rebuild submits for one file: the chunks, their
    metadata and their ids, or none when reading or chunking the file
    raises. *)
Definition file_submission `{Encoding} `{Markdown} (file : md_file)
  : option (list string * list chunk_metadata * list string) :=
  match MarkdownParser.extract_markdown_content file with
  | Py.Ok doc_data =>
      match SpecsIndexer.chunk_content (fst doc_data) 1000 200 with
      | Py.Ok chunks =>
          Some (chunks,
                imap (MarkdownParser.chunk_metadata_of (snd doc_data) chunks) chunks,
                imap (fun i _ => chunk_id (relative_path file) i) chunks)
      | Py.Raise _ => None
      end
  | Py.Raise _ => None
  end.

(** One [collection.add] of a batch; a batch that the collection refuses
    leaves it as it was. *)
Definition submit `{Floats} `{!VectorStore} (c : collection)
    (batch : option (list string * list chunk_metadata * list string)) : collection :=
  match batch with
  | Some (documents, metadatas, ids) =>
      match collection_add c documents metadatas ids with
      | Py.Ok c' => c'
      | Py.Raise _ => c
      end
  | None => c
  end.

(** The section recorded for a heading element. *)
Definition section_of (element : Z * string) : Section_info.t :=
  {| Section_info.level := fst element;
     Section_info.title := Py.strip (snd element);
     Section_info.content := EmptyString |}.

(** The preview kept for a chunk. *)
Definition preview_of (chunk : string) : string :=
  if 200 <? Py.str_len chunk then Py.str_slice_to chunk 200 +:+ "..." else chunk.

(** The metadata [m] is the one of chunk [i] of [chunks]: the document
    metadata with the position, the number of chunks and the preview. *)
Definition chunk_described (metadata : doc_metadata) (chunks : list string)
    (i : nat) (chunk : string) (m : chunk_metadata) : Prop :=
  chunks !! i = Some chunk
  /\ doc m = metadata
  /\ chunk_index m = Z.of_nat i
  /\ chunk_total m = Py.len chunks
  /\ chunk_preview m
     = if 200 <? Py.str_len chunk
       then Py.str_slice_to chunk 200 +:+ "..."
       else chunk.

(** A document of the index with the metadata kept at the same position. *)
Definition chunk_entry_ok (document : string) (meta : chunk_metadata) : Prop :=
  chunk_preview meta = preview_of document
  /\ 0 <= chunk_index meta < chunk_total meta.

(** The metadata entries that [get_file_summary] keeps for [path]. *)
Definition matching_metadata `{Floats} `{!Tfidf} (self : LiteSpecsQuery.t)
    (path : string) : list chunk_metadata :=
  List.filter (fun r => Py.contains path (file_path (doc r)))
    (LiteSpecsIndexer.metadata (LiteSpecsIndexer.db (LiteSpecsQuery.indexer self))).

(** A result of [SpecsQuery.search] without its relevance score, as
    [SpecsIndexer.search] builds it. *)
Definition without_relevance `{Floats} `{!VectorStore} (r : SpecsQuery.search_result)
  : SpecsIndexer.search_result :=
  {| SpecsIndexer.result_id := SpecsQuery.result_id r;
     SpecsIndexer.result_content := SpecsQuery.result_content r;
     SpecsIndexer.result_metadata := SpecsQuery.result_metadata r;
     SpecsIndexer.distance := SpecsQuery.distance r |}.

(** * Properties *)

(** ** Ranges and slices *)

Lemma range_len_spec (n step : Z) (k : nat) :
  0 < step ->
  (k < Z.to_nat (Py.range_len 0 n step))%nat <-> Z.of_nat k * step < n.
Proof.
  intros Hstep. unfold Py.range_len.
  destruct (Z.ltb_spec 0 step) as [_|?]; [|lia].
  destruct (Z.ltb_spec 0 n) as [Hn|Hn].
  - assert (Hd := Z.div_mod (n - 0 - 1) step ltac:(lia)).
    assert (Hm := Z.mod_pos_bound (n - 0 - 1) step Hstep).
    split; intros Hk; nia.
  - split; intros Hk; [simpl in Hk; lia | nia].
Qed.

Lemma range_from_zero (n step : Z) :
  0 < step ->
  Py.range 0 n step
  = Py.Ok ((fun k : nat => Z.of_nat k * step)
           <$> seq 0 (Z.to_nat (Py.range_len 0 n step))).
Proof.
  intros Hstep. unfold Py.range.
  destruct (Z.eqb_spec step 0) as [?|_]; [lia|]. reflexivity.
Qed.

Lemma slice_nonneg {A} (l : list A) (lo hi : Z) :
  0 <= lo -> 0 <= hi ->
  Py.slice l lo hi = take (Z.to_nat hi - Z.to_nat lo) (drop (Z.to_nat lo) l).
Proof.
  intros Hlo Hhi. unfold Py.slice, Py.slice_bound, Py.len.
  destruct (Z.ltb_spec lo 0) as [?|_]; [lia|].
  destruct (Z.ltb_spec hi 0) as [?|_]; [lia|].
  destruct (Z_le_gt_dec lo (Z.of_nat (length l))) as [Hle|Hgt].
  - rewrite (Z.min_l lo) by lia.
    destruct (Z_le_gt_dec hi (Z.of_nat (length l))) as [Hle'|Hgt'].
    + rewrite (Z.min_l hi) by lia. f_equal. lia.
    + rewrite (Z.min_r hi) by lia.
      rewrite !take_ge; [done| |]; rewrite length_drop; lia.
  - rewrite (Z.min_r lo) by lia.
    rewrite !(drop_ge l) by lia. by rewrite !take_nil.
Qed.

(** ** Token-windowed chunking ([index_specs.py]) *)

Lemma chunk_windows_eq (tokens : list Z) (chunk_size overlap : Z) :
  0 <= overlap < chunk_size ->
  SpecsIndexer.chunk_windows tokens chunk_size overlap
  = Py.Ok (window_at tokens chunk_size overlap
           <$> seq 0 (window_count tokens chunk_size overlap)).
Proof.
  intros Hov. unfold SpecsIndexer.chunk_windows.
  rewrite range_from_zero by lia. simpl. f_equal.
  rewrite <- list_fmap_compose. apply list_fmap_ext. intros _ k _. simpl.
  unfold window_at. rewrite slice_nonneg by nia.
  f_equal; [nia|]. f_equal. nia.
Qed.

Lemma chunk_content_decodes `{Encoding} (content : string) (chunk_size overlap : Z) :
  SpecsIndexer.chunk_content content chunk_size overlap
  = let* windows := SpecsIndexer.chunk_windows (encode content) chunk_size overlap in
    Py.Ok (decode <$> windows).
Proof.
  unfold SpecsIndexer.chunk_content, SpecsIndexer.chunk_windows.
  destruct (Py.range _ _ _) as [offsets|e]; simpl; [|done].
  by rewrite <- list_fmap_compose.
Qed.

Lemma window_count_spec (tokens : list Z) (chunk_size overlap : Z) (k : nat) :
  0 <= overlap < chunk_size ->
  (k < window_count tokens chunk_size overlap)%nat
  <-> Z.of_nat k * (chunk_size - overlap) < Py.len tokens.
Proof. intros Hov. apply range_len_spec. lia. Qed.

Lemma merge_windows_snoc (o : Z) (w0 w : list Z) (ws : list (list Z)) :
  merge_windows o ((w0 :: ws) ++ [w])
  = merge_windows o (w0 :: ws) ++ drop (Z.to_nat o) w.
Proof.
  simpl. rewrite fmap_app, concat_app. simpl.
  by rewrite app_nil_r, app_assoc.
Qed.

Lemma merge_windows_take (tokens : list Z) (chunk_size overlap : Z) (m : nat) :
  0 <= overlap < chunk_size ->
  merge_windows overlap (window_at tokens chunk_size overlap <$> seq 0 (S m))
  = take (m * Z.to_nat (chunk_size - overlap) + Z.to_nat chunk_size) tokens.
Proof.
  intros Hov. induction m as [|m IH].
  - simpl. unfold window_at. simpl. by rewrite app_nil_r.
  - rewrite seq_S, fmap_app. simpl fmap at 2.
    change (seq 0 (S m)) with (0%nat :: seq 1 m) in *.
    rewrite fmap_cons in *. rewrite merge_windows_snoc, IH.
    unfold window_at. simpl Nat.add.
    set (st := Z.to_nat (chunk_size - overlap)).
    set (s := Z.to_nat chunk_size).
    assert (Hs : s = (st + Z.to_nat overlap)%nat) by (subst s st; lia).
    rewrite take_drop_commute, drop_drop.
    replace (S m * st + Z.to_nat overlap)%nat with (m * st + s)%nat by lia.
    assert (Hpre : take (m * st + s) tokens
                   = take (m * st + s) (take (S m * st + s) tokens))
      by (rewrite take_take; f_equal; lia).
    rewrite Hpre at 1. apply take_drop.
Qed.

Lemma window_at_length (tokens : list Z) (chunk_size overlap : Z) (k : nat) :
  0 <= overlap < chunk_size ->
  Z.of_nat k * (chunk_size - overlap) < Py.len tokens ->
  Py.len (window_at tokens chunk_size overlap k)
  = Z.min chunk_size (Py.len tokens - Z.of_nat k * (chunk_size - overlap)).
Proof.
  intros Hov Hk. unfold window_at, Py.len in *.
  rewrite length_take, length_drop. nia.
Qed.

Lemma window_at_overlap (tokens : list Z) (chunk_size overlap : Z) (k : nat) :
  0 <= overlap < chunk_size ->
  drop (Z.to_nat (chunk_size - overlap)) (window_at tokens chunk_size overlap k)
  = take (Z.to_nat overlap) (window_at tokens chunk_size overlap (S k)).
Proof.
  intros Hov. unfold window_at.
  set (st := Z.to_nat (chunk_size - overlap)).
  set (o := Z.to_nat overlap).
  replace (Z.to_nat chunk_size) with (st + o)%nat by (subst st o; lia).
  rewrite take_take, Nat.min_l by lia.
  rewrite (take_drop_commute tokens (st + o)), drop_drop.
  replace (k * st + (st + o))%nat with (S k * st + o)%nat by lia.
  replace (k * st + st)%nat with (S k * st)%nat by lia.
  by rewrite <- take_drop_commute.
Qed.

(** C1, as the code has it: for [0 <= overlap < chunk_size] the chunker
    emits one window per offset [k * (chunk_size - overlap)] below the
    token count and decodes each; the window at an offset is the
    [chunk_size] tokens from there, cut at the end of the tokens, so its
    length is the minimum of [chunk_size] and the tokens left (every
    window that fits has [chunk_size] tokens, and several trailing windows
    can be shorter); what follows the first [chunk_size - overlap] tokens
    of a window is the start of the next one, [overlap] tokens of it or
    all that are left; and the first window followed by the later windows
    without their first [overlap] tokens is the whole token sequence. *)
Theorem chunk_windows_cover `{Encoding} (content : string) (chunk_size overlap : Z) :
  0 <= overlap < chunk_size ->
  let tokens := encode content in
  exists windows : list (list Z),
    SpecsIndexer.chunk_windows tokens chunk_size overlap = Py.Ok windows
    /\ SpecsIndexer.chunk_content content chunk_size overlap
       = Py.Ok (decode <$> windows)
    /\ (forall k : nat,
          (k < length windows)%nat
          <-> Z.of_nat k * (chunk_size - overlap) < Py.len tokens)
    /\ (forall (k : nat) (w : list Z),
          windows !! k = Some w ->
          w = Py.slice tokens (Z.of_nat k * (chunk_size - overlap))
                (Z.of_nat k * (chunk_size - overlap) + chunk_size)
          /\ Py.len w
             = Z.min chunk_size
                 (Py.len tokens - Z.of_nat k * (chunk_size - overlap)))
    /\ (forall (k : nat) (w w' : list Z),
          windows !! k = Some w -> windows !! S k = Some w' ->
          drop (Z.to_nat (chunk_size - overlap)) w = take (Z.to_nat overlap) w'
          /\ Py.len (take (Z.to_nat overlap) w')
             = Z.min overlap
                 (Py.len tokens - Z.of_nat (S k) * (chunk_size - overlap)))
    /\ merge_windows overlap windows = tokens.
Proof.
  intros Hov tokens.
  exists (window_at tokens chunk_size overlap
          <$> seq 0 (window_count tokens chunk_size overlap)).
  assert (Hlook : forall (k : nat) w,
             (window_at tokens chunk_size overlap
              <$> seq 0 (window_count tokens chunk_size overlap)) !! k = Some w ->
             w = window_at tokens chunk_size overlap k
             /\ Z.of_nat k * (chunk_size - overlap) < Py.len tokens).
  { intros k w Hk. rewrite list_lookup_fmap in Hk.
    destruct (seq _ _ !! k) as [j|] eqn:Hj; [|done].
    apply lookup_seq in Hj as [-> Hlt]. simpl in Hk.
    split; [congruence|]. by apply window_count_spec. }
  split; [by apply chunk_windows_eq|].
  split.
  { rewrite chunk_content_decodes. fold tokens.
    by rewrite chunk_windows_eq. }
  split.
  { intros k. rewrite length_fmap, length_seq. by apply window_count_spec. }
  split.
  { intros k w Hk. apply Hlook in Hk as [-> Hk]. split.
    - unfold window_at. rewrite slice_nonneg by nia.
      f_equal; [nia|]. f_equal. nia.
    - by apply window_at_length. }
  split.
  { intros k w w' Hk Hk'. apply Hlook in Hk as [-> Hk].
    apply Hlook in Hk' as [-> Hk']. split.
    - by apply window_at_overlap.
    - assert (Hlen := window_at_length tokens chunk_size overlap (S k) Hov Hk').
      unfold Py.len in *. rewrite length_take. lia. }
  destruct (window_count tokens chunk_size overlap) as [|m] eqn:Hcnt.
  - simpl. assert (Hz := proj2 (window_count_spec tokens chunk_size overlap 0 Hov)).
    rewrite Hcnt in Hz. unfold Py.len in Hz.
    destruct tokens as [|? ?]; [done|]. simpl length in Hz. lia.
  - rewrite merge_windows_take by done. apply take_ge.
    assert (Hz := window_count_spec tokens chunk_size overlap (S m) Hov).
    rewrite Hcnt in Hz. unfold Py.len in Hz. nia.
Qed.

Lemma chunk_windows_cover_witness :
  0 <= 3 < 4
  /\ exists windows : list (list Z),
       SpecsIndexer.chunk_windows [97; 98; 99; 100; 101] 4 3 = Py.Ok windows
       /\ @SpecsIndexer.chunk_content Fixtures.char_encoding "abcde" 4 3
          = Py.Ok (@decode Fixtures.char_encoding <$> windows)
       /\ merge_windows 3 windows = [97; 98; 99; 100; 101].
Proof.
  split; [lia|].
  destruct (@chunk_windows_cover Fixtures.char_encoding "abcde" 4 3 ltac:(lia))
    as (windows & Hw & Hc & _ & _ & _ & Hm).
  exists windows. split; [exact Hw | split; [exact Hc | exact Hm]].
Defined.

(** C1 as worded fails: with five tokens, size 4 and overlap 3 the third
    window has three tokens and the fourth has two, and neither is the
    last one. *)
Lemma chunk_windows_short_before_last :
  SpecsIndexer.chunk_windows [1; 2; 3; 4; 5] 4 3
  = Py.Ok [[1; 2; 3; 4]; [2; 3; 4; 5]; [3; 4; 5]; [4; 5]; [5]]
  /\ ~ (forall (tokens : list Z) (chunk_size overlap : Z),
          0 <= overlap < chunk_size ->
          forall windows : list (list Z),
            SpecsIndexer.chunk_windows tokens chunk_size overlap = Py.Ok windows ->
            forall (k : nat) (w : list Z),
              (S k < length windows)%nat -> windows !! k = Some w ->
              Py.len w = chunk_size).
Proof.
  split; [reflexivity|]. intros Hclaim.
  specialize (Hclaim [1; 2; 3; 4; 5] 4 3 ltac:(lia) _ eq_refl 2%nat [3; 4; 5]).
  simpl in Hclaim. specialize (Hclaim ltac:(lia) eq_refl). discriminate.
Qed.

(** C2, as the code has it: a text of at least one token and at most
    [chunk_size - overlap] tokens (the stride of the windows) gives exactly
    one chunk, the decoded first [chunk_size] tokens, which is the whole
    text when the overlap is not negative. *)
Theorem chunk_content_single `{Encoding} (content : string) (chunk_size overlap : Z) :
  overlap < chunk_size ->
  1 <= Py.len (encode content) <= chunk_size - overlap ->
  SpecsIndexer.chunk_content content chunk_size overlap
  = Py.Ok [decode (Py.slice (encode content) 0 chunk_size)]
  /\ (0 <= overlap -> Py.slice (encode content) 0 chunk_size = encode content).
Proof.
  intros Hov Hn. split.
  - unfold SpecsIndexer.chunk_content.
    rewrite range_from_zero by lia.
    assert (Hone : Z.to_nat (Py.range_len 0 (Py.len (encode content))
                               (chunk_size - overlap)) = 1%nat).
    { assert (H0 := proj2 (range_len_spec (Py.len (encode content))
                             (chunk_size - overlap) 0 ltac:(lia)) ltac:(lia)).
      assert (H1 := proj1 (range_len_spec (Py.len (encode content))
                             (chunk_size - overlap) 1 ltac:(lia))).
      destruct (Z.to_nat _) as [|[|c]]; [lia|done|].
      specialize (H1 ltac:(lia)). lia. }
    rewrite Hone. reflexivity.
  - intros Hnn. rewrite slice_nonneg by lia. simpl.
    rewrite Nat.sub_0_r. apply take_ge. unfold Py.len in Hn. lia.
Qed.

Lemma chunk_content_single_witness :
  2 < 4 /\ 1 <= 2 <= 4 - 2
  /\ @SpecsIndexer.chunk_content Fixtures.char_encoding "ab" 4 2 = Py.Ok ["ab"].
Proof.
  split; [lia|]. split; [lia|].
  assert (Hlen : 1 <= Py.len (@encode Fixtures.char_encoding "ab") <= 4 - 2)
    by (change (1 <= 2 <= 4 - 2); lia).
  destruct (@chunk_content_single Fixtures.char_encoding "ab" 4 2 ltac:(lia) Hlen)
    as [Hc _].
  exact Hc.
Defined.

(** The bound of [chunk_content_single] is sharp: beyond the stride there
    are at least two chunks. *)
Lemma chunk_content_second_window `{Encoding} (content : string) (chunk_size overlap : Z) :
  0 <= overlap < chunk_size ->
  chunk_size - overlap < Py.len (encode content) ->
  exists chunks,
    SpecsIndexer.chunk_content content chunk_size overlap = Py.Ok chunks
    /\ (2 <= length chunks)%nat.
Proof.
  intros Hov Hn. eexists. split.
  - rewrite chunk_content_decodes, chunk_windows_eq by done. reflexivity.
  - rewrite !length_fmap, length_seq.
    apply (window_count_spec (encode content) chunk_size overlap 1 Hov). lia.
Qed.

(** C2 as worded fails: three tokens with size 4 and overlap 2 are within
    the chunk size and give two chunks. *)
Lemma chunk_content_two_chunks_within_size :
  @SpecsIndexer.chunk_content Fixtures.char_encoding "abc" 4 2 = Py.Ok ["abc"; "c"]
  /\ ~ (forall (E : Encoding) (content : string) (chunk_size overlap : Z),
          overlap < chunk_size ->
          1 <= Py.len (encode content) <= chunk_size ->
          exists chunk : string,
            SpecsIndexer.chunk_content content chunk_size overlap = Py.Ok [chunk]).
Proof.
  split; [reflexivity|]. intros Hclaim.
  destruct (Hclaim Fixtures.char_encoding "abc" 4 2 ltac:(lia)) as [chunk Hc].
  - change (1 <= 3 <= 4). lia.
  - discriminate Hc.
Qed.

(** ** Paragraph-packing chunking ([index_specs_lite.py]) *)

(** C3, where the code departs from it: a paragraph longer than
    [chunk_size] that arrives while the running chunk is not empty replaces
    the running chunk and is later emitted whole, although the same
    paragraph alone is split by words.  Shown with size 10 and with the
    default size 1000. *)
Theorem oversized_paragraph_emitted_whole :
  LiteSpecsIndexer.chunk_content
    ("ab" +:+ Py.LF +:+ Py.LF +:+ "aaaa bbbb cccc dddd") 10 200
  = Py.Ok ["ab"; "aaaa bbbb cccc dddd"]
  /\ 10 < Py.str_len "aaaa bbbb cccc dddd"
  /\ LiteSpecsIndexer.chunk_content "aaaa bbbb cccc dddd" 10 200
     = Py.Ok ["aaaa bbbb"; "cccc dddd"]
  /\ LiteSpecsIndexer.chunk_content
       ("ab" +:+ Py.LF +:+ Py.LF +:+ Py.repeat_char "x" 1001) 1000 200
     = Py.Ok ["ab"; Py.repeat_char "x" 1001]
  /\ 1000 < Py.str_len (Py.repeat_char "x" 1001).
Proof. repeat split; vm_compute; reflexivity. Qed.

(** C10: the text made of one space is not empty and is all whitespace,
    and its only chunk is the empty string; the empty text has no chunk. *)
Theorem whitespace_text_gives_empty_chunk :
  Py.nonempty " " = true
  /\ Py.isspace " " = true
  /\ Py.strip " " = EmptyString
  /\ LiteSpecsIndexer.chunk_content " " 1000 200 = Py.Ok [EmptyString]
  /\ LiteSpecsIndexer.chunk_content EmptyString 1000 200 = Py.Ok [].
Proof. repeat split; reflexivity. Qed.

(** ** Search with a file filter *)

Lemma contains_empty (s : string) : Py.contains EmptyString s = true.
Proof. destruct s; reflexivity. Qed.


Lemma filter_all_true {A} (f : A -> bool) (l : list A) :
  Forall (fun x => f x = true) l -> List.filter f l = l.
Proof.
  induction 1 as [|x l Hx _ IH]; simpl; [done|]. by rewrite Hx, IH.
Qed.


Lemma slice_to_length {A} (l : list A) (n : Z) :
  0 <= n -> Py.len (Py.slice_to l n) <= n.
Proof.
  intros Hn. unfold Py.slice_to, Py.len. rewrite slice_nonneg by lia.
  rewrite length_take. lia.
Qed.

Lemma results_loop_length `{Floats} `{!Tfidf} (self : LiteSpecsIndexer.t)
    (sims : list float) (top : list nat)
    (acc results : list LiteSpecsIndexer.search_result) :
  LiteSpecsIndexer.results_loop self sims top acc = Py.Ok results ->
  (length results <= length acc + length top)%nat.
Proof.
  revert acc. induction top as [|idx top IH]; intros acc; simpl.
  - intros [= <-]. lia.
  - destruct (Py.index sims idx) as [score|]; simpl; [|done].
    destruct (float_pos score).
    + destruct (Py.index (LiteSpecsIndexer.documents _) idx) as [c|]; simpl; [|done].
      destruct (Py.index (LiteSpecsIndexer.metadata _) idx) as [m|]; simpl; [|done].
      intros Hr. apply IH in Hr. rewrite length_app in Hr. simpl in Hr. lia.
    + intros Hr. apply IH in Hr. lia.
Qed.

Lemma lite_search_length `{Floats} `{!Tfidf} (self : LiteSpecsIndexer.t)
    (query : string) (n_results : Z) (results : list LiteSpecsIndexer.search_result) :
  0 <= n_results ->
  snd (LiteSpecsIndexer.search self query n_results) = Py.Ok results ->
  Py.len results <= n_results.
Proof.
  intros Hn. unfold LiteSpecsIndexer.search.
  destruct (negb _); simpl; [done|].
  intros Hr. apply results_loop_length in Hr. simpl in Hr.
  match type of Hr with
  | (_ <= length (Py.slice_to ?l _))%nat =>
      assert (Hs := slice_to_length l n_results Hn)
  end.
  unfold Py.len in *. lia.
Qed.

Lemma mapM_result_Forall2 {A B} (f : A -> Py.result B) (l : list A) (rs : list B) :
  mapM f l = Py.Ok rs -> Forall2 (fun x r => f x = Py.Ok r) l rs.
Proof.
  revert rs. induction l as [|x l IH]; intros rs; simpl.
  - intros [= <-]. constructor.
  - unfold mbind, result_bind. destruct (f x) as [y|] eqn:Hy; simpl; [|done].
    destruct (mapM f l) as [k|]; simpl; [|done].
    intros [= <-]. constructor; [done|]. by apply IH.
Qed.






(** ** Context packing under a budget *)

Lemma str_app_assoc (a b c : string) : (a +:+ b) +:+ c = a +:+ (b +:+ c).
Proof.
  induction a as [|x a IH]; [done|].
  change (String x ((a +:+ b) +:+ c) = String x (a +:+ (b +:+ c))).
  by rewrite IH.
Qed.

Lemma str_app_nil_r (a : string) : a +:+ EmptyString = a.
Proof.
  induction a as [|x a IH]; [done|].
  change (String x (a +:+ EmptyString) = String x a). by rewrite IH.
Qed.

Lemma str_prefix_app (a b : string) : String.prefix a (a +:+ b) = true.
Proof.
  induction a as [|x a IH]; [by destruct b|].
  change (String.prefix (String x a) (String x (a +:+ b)) = true). simpl.
  destruct (ascii_dec x x); [done|congruence].
Qed.

Lemma join_cons (sep x : string) (l : list string) :
  Py.join sep (x :: l) = x +:+ joined_tail sep l.
Proof.
  revert x. induction l as [|y l IH]; intros x.
  - simpl. by rewrite str_app_nil_r.
  - change (Py.join sep (x :: y :: l)) with (x +:+ sep +:+ Py.join sep (y :: l)).
    by rewrite IH.
Qed.

Lemma joined_tail_app (sep : string) (l1 l2 : list string) :
  joined_tail sep (l1 ++ l2) = joined_tail sep l1 +:+ joined_tail sep l2.
Proof.
  induction l1 as [|x l1 IH]; simpl; [done|].
  by rewrite IH, !str_app_assoc.
Qed.

Lemma join_app (sep x : string) (l1 l2 : list string) :
  Py.join sep ((x :: l1) ++ l2) = Py.join sep (x :: l1) +:+ joined_tail sep l2.
Proof.
  change ((x :: l1) ++ l2) with (x :: (l1 ++ l2)).
  by rewrite !join_cons, joined_tail_app, str_app_assoc.
Qed.

Lemma admitted_le (size : string -> Z) (budget current : Z) (blocks : list string) :
  (admitted size budget current blocks <= length blocks)%nat.
Proof.
  revert current. induction blocks as [|b rest IH]; intros current; simpl; [lia|].
  destruct (budget <? current + size b); [lia|]. specialize (IH (current + size b)). lia.
Qed.

Lemma admitted_within (size : string -> Z) (budget current : Z)
    (blocks : list string) (j : nat) :
  (1 <= j <= admitted size budget current blocks)%nat ->
  current + total_size size (take j blocks) <= budget.
Proof.
  revert current j. induction blocks as [|b rest IH]; intros current j; simpl; [lia|].
  destruct (Z.ltb_spec budget (current + size b)) as [?|Hfit]; [lia|].
  intros Hj. destruct j as [|[|j]]; [lia| |].
  - simpl. lia.
  - change (take (S (S j)) (b :: rest)) with (b :: take (S j) rest). simpl.
    specialize (IH (current + size b) (S j) ltac:(lia)). simpl in IH. lia.
Qed.

Lemma admitted_stop (size : string -> Z) (budget current : Z) (blocks : list string) :
  (admitted size budget current blocks < length blocks)%nat ->
  budget
  < current + total_size size (take (S (admitted size budget current blocks)) blocks).
Proof.
  revert current. induction blocks as [|b rest IH]; intros current; simpl; [lia|].
  destruct (Z.ltb_spec budget (current + size b)) as [Hover|Hfit].
  - intros _. simpl. lia.
  - intros Hk. specialize (IH (current + size b) ltac:(lia)).
    simpl in IH. lia.
Qed.

Lemma admitted_none (size : string -> Z) (budget current : Z) (blocks : list string) :
  budget < current -> (forall b, 0 <= size b) ->
  admitted size budget current blocks = 0%nat.
Proof.
  intros Hover Hsize. destruct blocks as [|b rest]; simpl; [done|].
  specialize (Hsize b).
  destruct (Z.ltb_spec budget (current + size b)); [done|lia].
Qed.

Lemma lite_context_loop_eq `{Floats} `{!Tfidf} (max_tokens : Z)
    (results : list LiteSpecsIndexer.search_result)
    (context_parts : list string) (current_chars : Z) :
  LiteSpecsIndexer.context_loop max_tokens results context_parts current_chars
  = context_parts
    ++ take (admitted Py.str_len max_tokens current_chars
               (LiteSpecsIndexer.result_text <$> results))
         (LiteSpecsIndexer.result_text <$> results).
Proof.
  revert context_parts current_chars.
  induction results as [|r rest IH]; intros parts cur; simpl.
  - by rewrite app_nil_r.
  - destruct (max_tokens <? _); simpl; [by rewrite app_nil_r|].
    rewrite IH. by rewrite <- app_assoc.
Qed.

Lemma query_context_loop_eq `{Encoding} `{Floats} `{!VectorStore} (max_tokens : Z)
    (results : list SpecsQuery.search_result) (blocks : list string)
    (context_parts : list string) (current_tokens : Z) :
  mapM SpecsQuery.result_text results = Py.Ok blocks ->
  SpecsQuery.context_loop max_tokens results context_parts current_tokens
  = Py.Ok (context_parts
           ++ take (admitted SpecsQuery.token_len max_tokens current_tokens blocks)
                blocks).
Proof.
  revert blocks context_parts current_tokens.
  induction results as [|r rest IH]; intros blocks parts cur; simpl.
  - intros [= <-]. simpl. by rewrite app_nil_r.
  - unfold mbind, result_bind.
    destruct (SpecsQuery.result_text r) as [b|]; simpl; [|done].
    destruct (mapM SpecsQuery.result_text rest) as [bs|] eqn:Hbs; simpl; [|done].
    intros [= <-]. simpl.
    destruct (max_tokens <? _); simpl; [by rewrite app_nil_r|].
    rewrite (IH bs) by done. by rewrite <- app_assoc.
Qed.

Lemma header_joined : Py.join Py.LF LiteSpecsIndexer.context_header = header_text.
Proof. reflexivity. Qed.

Lemma lite_context_eq `{Floats} `{!Tfidf} (self : LiteSpecsIndexer.t)
    (query : string) (max_tokens : Z) :
  snd (LiteSpecsIndexer.get_context_for_generation self query max_tokens)
  = let* results := snd (LiteSpecsIndexer.search self query 10) in
    Py.Ok (Py.join Py.LF
             (LiteSpecsIndexer.context_header
              ++ take (admitted Py.str_len max_tokens (Py.str_len header_text)
                         (LiteSpecsIndexer.result_text <$> results))
                   (LiteSpecsIndexer.result_text <$> results))).
Proof.
  unfold LiteSpecsIndexer.get_context_for_generation.
  destruct (LiteSpecsIndexer.search self query 10) as [self' [results|e]];
    [|reflexivity].
  cbn [snd Py.bind]. rewrite lite_context_loop_eq. reflexivity.
Qed.

Lemma query_context_eq `{Encoding} `{Floats} `{!VectorStore} (self : collection)
    (query : string) (max_tokens : Z)
    (results : list SpecsQuery.search_result) (blocks : list string) :
  SpecsQuery.search self query 10 None = Py.Ok results ->
  mapM SpecsQuery.result_text results = Py.Ok blocks ->
  SpecsQuery.get_context_for_generation self query max_tokens
  = Py.Ok (Py.join Py.LF
             (SpecsQuery.context_header
              ++ take (admitted SpecsQuery.token_len max_tokens
                         (SpecsQuery.token_len header_text) blocks)
                   blocks)).
Proof.
  intros Hs Hb. unfold SpecsQuery.get_context_for_generation.
  rewrite Hs. cbn [Py.bind].
  rewrite (query_context_loop_eq _ _ blocks) by done. reflexivity.
Qed.

(** C5: the context holds the header and then the formatted blocks of the
    first [k] candidates of the search for 10 results, in rank order, for
    some [k]: every block up to the [k]-th keeps the counter within the
    budget, and when a candidate is left out, the first one left out is
    the one whose block would take the counter past the budget; none that
    follows it is included.  For the TF-IDF indexer the counter is in
    characters and there are at most 10 candidates; for the vector store it
    is in tokens. *)
Theorem context_is_prefix_of_candidates `{Encoding} `{Floats} `{!Tfidf} `{!VectorStore} :
  (forall (self : LiteSpecsIndexer.t) (query : string) (max_tokens : Z)
          (results : list LiteSpecsIndexer.search_result),
      snd (LiteSpecsIndexer.search self query 10) = Py.Ok results ->
      exists k : nat,
        (k <= length results <= 10)%nat
        /\ snd (LiteSpecsIndexer.get_context_for_generation self query max_tokens)
           = Py.Ok (Py.join Py.LF
                      (LiteSpecsIndexer.context_header
                       ++ (LiteSpecsIndexer.result_text <$> take k results)))
        /\ (forall j : nat,
              (1 <= j <= k)%nat ->
              Py.str_len header_text
              + total_size Py.str_len (LiteSpecsIndexer.result_text <$> take j results)
              <= max_tokens)
        /\ ((k < length results)%nat ->
            max_tokens
            < Py.str_len header_text
              + total_size Py.str_len
                  (LiteSpecsIndexer.result_text <$> take (S k) results)))
  /\ (forall (self : collection) (query : string) (max_tokens : Z)
             (results : list SpecsQuery.search_result) (blocks : list string),
         SpecsQuery.search self query 10 None = Py.Ok results ->
         mapM SpecsQuery.result_text results = Py.Ok blocks ->
         exists k : nat,
           (k <= length blocks)%nat
           /\ SpecsQuery.get_context_for_generation self query max_tokens
              = Py.Ok (Py.join Py.LF (SpecsQuery.context_header ++ take k blocks))
           /\ (forall j : nat,
                 (1 <= j <= k)%nat ->
                 SpecsQuery.token_len header_text
                 + total_size SpecsQuery.token_len (take j blocks)
                 <= max_tokens)
           /\ ((k < length blocks)%nat ->
               max_tokens
               < SpecsQuery.token_len header_text
                 + total_size SpecsQuery.token_len (take (S k) blocks))).
Proof.
  split.
  - intros self query max_tokens results Hs.
    set (blocks := LiteSpecsIndexer.result_text <$> results).
    exists (admitted Py.str_len max_tokens (Py.str_len header_text) blocks).
    assert (Hle := admitted_le Py.str_len max_tokens (Py.str_len header_text) blocks).
    assert (Hlen : length blocks = length results) by apply length_fmap.
    split.
    { split; [lia|].
      assert (Hten := lite_search_length self query 10 results ltac:(lia) Hs).
      unfold Py.len in Hten. lia. }
    split; [by rewrite lite_context_eq, Hs, fmap_take|].
    split.
    + intros j Hj. rewrite fmap_take. by apply admitted_within.
    + intros Hk. rewrite fmap_take. apply admitted_stop.
      by rewrite length_fmap.
  - intros self query max_tokens results blocks Hs Hb.
    exists (admitted SpecsQuery.token_len max_tokens
              (SpecsQuery.token_len header_text) blocks).
    split; [apply admitted_le|].
    split; [by apply (query_context_eq self query max_tokens results)|].
    split.
    + intros j Hj. by apply admitted_within.
    + intros Hk. by apply admitted_stop.
Qed.

Lemma context_is_prefix_of_candidates_witness :
  exists (results : list LiteSpecsIndexer.search_result) (k : nat),
    snd (LiteSpecsIndexer.search Fixtures.lite_indexer "alpha" 10) = Py.Ok results
    /\ length results = 2%nat
    /\ (k <= length results <= 10)%nat
    /\ snd (LiteSpecsIndexer.get_context_for_generation Fixtures.lite_indexer
              "alpha" 200)
       = Py.Ok (Py.join Py.LF
                  (LiteSpecsIndexer.context_header
                   ++ (LiteSpecsIndexer.result_text <$> take k results))).
Proof.
  eexists.
  destruct (proj1 (@context_is_prefix_of_candidates Fixtures.char_encoding
                     Fixtures.centi Fixtures.word_overlap Fixtures.list_store)
              Fixtures.lite_indexer "alpha" 200 _ eq_refl)
    as (k & Hk & Hc & _).
  exists k. split; [reflexivity|]. split; [reflexivity|].
  split; [exact Hk | exact Hc].
Defined.

(** C9: the returned context starts with the two header lines whatever the
    budget, and for a budget below the size of the header it is the header
    alone, which is larger than the budget (characters for the TF-IDF
    indexer, tokens for the vector store). *)
Theorem context_starts_with_header `{Encoding} `{Floats} `{!Tfidf} `{!VectorStore} :
  (forall (self : LiteSpecsIndexer.t) (query : string) (max_tokens : Z)
          (results : list LiteSpecsIndexer.search_result),
      snd (LiteSpecsIndexer.search self query 10) = Py.Ok results ->
      exists context : string,
        snd (LiteSpecsIndexer.get_context_for_generation self query max_tokens)
        = Py.Ok context
        /\ String.prefix header_text context = true
        /\ (max_tokens < Py.str_len header_text ->
            context = header_text /\ max_tokens < Py.str_len context))
  /\ (forall (self : collection) (query : string) (max_tokens : Z)
             (results : list SpecsQuery.search_result) (blocks : list string),
         SpecsQuery.search self query 10 None = Py.Ok results ->
         mapM SpecsQuery.result_text results = Py.Ok blocks ->
         exists context : string,
           SpecsQuery.get_context_for_generation self query max_tokens
           = Py.Ok context
           /\ String.prefix header_text context = true
           /\ (max_tokens < SpecsQuery.token_len header_text ->
               context = header_text /\ max_tokens < SpecsQuery.token_len context))
  /\ Py.str_len header_text = 88.
Proof.
  split; [|split; [|reflexivity]].
  - intros self query max_tokens results Hs.
    eexists. split; [rewrite lite_context_eq, Hs; reflexivity|].
    change LiteSpecsIndexer.context_header
      with ["CONTEXT FROM BOOKLITE SPECIFICATIONS:"; Py.repeat_char "=" 50].
    rewrite join_app. change (Py.join Py.LF [_; _]) with header_text.
    split; [apply str_prefix_app|].
    intros Hsmall. rewrite admitted_none; [|done|intros b; unfold Py.str_len; lia].
    rewrite take_0. simpl. rewrite str_app_nil_r. done.
  - intros self query max_tokens results blocks Hs Hb.
    eexists. split; [by apply (query_context_eq self query max_tokens results)|].
    change SpecsQuery.context_header
      with ["CONTEXT FROM BOOKLITE SPECIFICATIONS:"; Py.repeat_char "=" 50].
    rewrite join_app. change (Py.join Py.LF [_; _]) with header_text.
    split; [apply str_prefix_app|].
    intros Hsmall.
    rewrite admitted_none;
      [|done|intros b; unfold SpecsQuery.token_len, Py.len; lia].
    rewrite take_0. simpl. rewrite str_app_nil_r. done.
Qed.

Lemma context_starts_with_header_witness :
  (exists results : list LiteSpecsIndexer.search_result,
      snd (LiteSpecsIndexer.search Fixtures.lite_indexer "alpha" 10) = Py.Ok results
      /\ length results = 2%nat)
  /\ 0 < Py.str_len header_text
  /\ exists context : string,
       snd (LiteSpecsIndexer.get_context_for_generation Fixtures.lite_indexer
              "alpha" 0)
       = Py.Ok context
       /\ context = header_text
       /\ 0 < Py.str_len context.
Proof.
  split; [eexists; split; reflexivity|]. split; [reflexivity|].
  destruct (proj1 (@context_starts_with_header Fixtures.char_encoding
                     Fixtures.centi Fixtures.word_overlap Fixtures.list_store)
              Fixtures.lite_indexer "alpha" 0 _ eq_refl)
    as (context & Hc & _ & Hsmall).
  exists context. split; [exact Hc|].
  apply Hsmall. reflexivity.
Defined.

(** The example of the budget 2500 with three blocks of 1000: the first two
    are admitted after the 88 characters of the header. *)
Lemma admitted_three_blocks (size : string -> Z) (b1 b2 b3 : string) :
  size b1 = 1000 -> size b2 = 1000 -> size b3 = 1000 ->
  admitted size 2500 88 [b1; b2; b3] = 2%nat.
Proof. intros H1 H2 H3. simpl. rewrite H1, H2, H3. reflexivity. Qed.

(** ** Searches that match nothing *)

Lemma slice_to_zero {A} (l : list A) : Py.slice_to l 0 = [].
Proof. unfold Py.slice_to. by rewrite slice_nonneg. Qed.

Lemma slice_to_Forall {A} (P : A -> Prop) (l : list A) (n : Z) :
  Forall P l -> Forall P (Py.slice_to l n).
Proof.
  intros Hl. unfold Py.slice_to, Py.slice. by apply Forall_take, Forall_drop.
Qed.

Lemma results_loop_no_match `{Floats} `{!Tfidf} (self : LiteSpecsIndexer.t)
    (sims : list float) (top : list nat)
    (acc : list LiteSpecsIndexer.search_result) :
  Forall (fun score => float_pos score = false) sims ->
  Forall (fun idx => (idx < length sims)%nat) top ->
  LiteSpecsIndexer.results_loop self sims top acc = Py.Ok acc.
Proof.
  intros Hsims Htop. induction Htop as [|idx top Hidx _ IH]; simpl; [done|].
  unfold Py.index.
  destruct (lookup_lt_is_Some_2 sims idx Hidx) as [score Hscore].
  rewrite Hscore. simpl.
  rewrite Forall_forall in Hsims.
  rewrite (Hsims score) by (by eapply list_elem_of_lookup_2).
  exact IH.
Qed.

(** C8: on an indexer whose index is built, a search for 0 results returns
    the empty list, and so does a search for the empty query, to which the
    vectorizer gives no positive similarity ([argsort] returning positions
    of its argument); neither raises. *)
Theorem search_without_matches `{Floats} `{!Tfidf} (self : LiteSpecsIndexer.t) :
  LiteSpecsIndexer.is_indexed (LiteSpecsIndexer.db (LiteSpecsIndexer.loaded self))
  = true ->
  (forall query : string, snd (LiteSpecsIndexer.search self query 0) = Py.Ok [])
  /\ (forall n_results : Z,
        let db := LiteSpecsIndexer.db (LiteSpecsIndexer.loaded self) in
        let scores :=
          similarities (LiteSpecsIndexer.the_vectorizer db)
            (LiteSpecsIndexer.tfidf_matrix db) EmptyString in
        Forall (fun score => float_pos score = false) scores ->
        Forall (fun idx => (idx < length scores)%nat) (argsort scores) ->
        snd (LiteSpecsIndexer.search self EmptyString n_results) = Py.Ok []).
Proof.
  intros Hix. split.
  - intros query. unfold LiteSpecsIndexer.search. rewrite Hix. simpl.
    by rewrite slice_to_zero.
  - intros n_results db scores Hscores Hperm.
    unfold LiteSpecsIndexer.search. rewrite Hix. simpl.
    apply results_loop_no_match; [done|].
    apply slice_to_Forall, Forall_rev. exact Hperm.
Qed.

Lemma search_without_matches_witness :
  LiteSpecsIndexer.is_indexed
    (LiteSpecsIndexer.db (LiteSpecsIndexer.loaded Fixtures.lite_indexer)) = true
  /\ snd (LiteSpecsIndexer.search Fixtures.lite_indexer "alpha" 0) = Py.Ok []
  /\ snd (LiteSpecsIndexer.search Fixtures.lite_indexer EmptyString 5) = Py.Ok [].
Proof.
  split; [reflexivity|].
  destruct (@search_without_matches Fixtures.centi Fixtures.word_overlap
              Fixtures.lite_indexer eq_refl) as [Hzero Hempty].
  split; [apply Hzero|].
  apply Hempty.
  - repeat constructor.
  - repeat constructor.
Defined.

(** ** Rebuilding the index *)

Lemma with_chunks_same `{Floats} `{!Tfidf} (self : LiteSpecsIndexer.t) :
  LiteSpecsIndexer.with_chunks
    (LiteSpecsIndexer.documents (LiteSpecsIndexer.db self))
    (LiteSpecsIndexer.metadata (LiteSpecsIndexer.db self)) self
  = self.
Proof. by destruct self as [[] ?]. Qed.

Lemma lite_index_step `{Markdown} `{Floats} `{!Tfidf} (file : md_file)
    (self : LiteSpecsIndexer.t) :
  match LiteSpecsIndexer.index_file file self with
  | Py.Ok self' => self'
  | Py.Raise _ => self
  end
  = LiteSpecsIndexer.with_chunks
      (LiteSpecsIndexer.documents (LiteSpecsIndexer.db self) ++ fst (file_chunks file))
      (LiteSpecsIndexer.metadata (LiteSpecsIndexer.db self) ++ snd (file_chunks file))
      self.
Proof.
  unfold LiteSpecsIndexer.index_file, file_chunks.
  destruct (MarkdownParser.extract_markdown_content file) as [doc_data|e]; simpl.
  - destruct (LiteSpecsIndexer.chunk_content _ _ _) as [chunks|e]; simpl; [done|].
    by rewrite !app_nil_r, with_chunks_same.
  - by rewrite !app_nil_r, with_chunks_same.
Qed.

Lemma lite_index_fold `{Markdown} `{Floats} `{!Tfidf} (md_files : list md_file)
    (self : LiteSpecsIndexer.t) :
  foldl (fun self file =>
           match LiteSpecsIndexer.index_file file self with
           | Py.Ok self' => self'
           | Py.Raise _ => self
           end) self md_files
  = LiteSpecsIndexer.with_chunks
      (LiteSpecsIndexer.documents (LiteSpecsIndexer.db self)
       ++ corpus_documents md_files)
      (LiteSpecsIndexer.metadata (LiteSpecsIndexer.db self)
       ++ corpus_metadata md_files)
      self.
Proof.
  revert self. induction md_files as [|file rest IH]; intros self.
  - simpl. unfold corpus_documents, corpus_metadata. simpl.
    by rewrite !app_nil_r, with_chunks_same.
  - simpl foldl. rewrite lite_index_step, IH.
    unfold corpus_documents, corpus_metadata. simpl.
    by rewrite !app_assoc.
Qed.

(** The state and the outcome of [LiteSpecsIndexer.index_all] written out:
    the chunks are those of the files, whatever was indexed before. *)
Lemma lite_index_all_eq `{Markdown} `{Floats} `{!Tfidf} (md_files : list md_file)
    (self : LiteSpecsIndexer.t) :
  LiteSpecsIndexer.index_all md_files self
  = match md_files with
    | [] => (LiteSpecsIndexer.with_chunks [] [] self, Py.Ok tt)
    | _ =>
        let indexed :=
          LiteSpecsIndexer.with_chunks
            (corpus_documents md_files) (corpus_metadata md_files) self in
        match corpus_documents md_files with
        | [] => (LiteSpecsIndexer.save indexed, Py.Ok tt)
        | _ =>
            match fit_transform (corpus_documents md_files) with
            | Py.Raise e => (indexed, Py.Raise e)
            | Py.Ok (v, m) =>
                (LiteSpecsIndexer.save
                   {| LiteSpecsIndexer.db :=
                        {| LiteSpecsIndexer.documents := corpus_documents md_files;
                           LiteSpecsIndexer.metadata := corpus_metadata md_files;
                           LiteSpecsIndexer.the_vectorizer := v;
                           LiteSpecsIndexer.tfidf_matrix := Some m;
                           LiteSpecsIndexer.is_indexed := true |};
                      LiteSpecsIndexer.db_file := LiteSpecsIndexer.db_file self |},
                 Py.Ok tt)
            end
        end
    end.
Proof.
  unfold LiteSpecsIndexer.index_all.
  destruct md_files as [|file rest]; [done|].
  rewrite lite_index_fold. simpl.
  destruct (corpus_documents (file :: rest)); [done|].
  destruct (fit_transform _) as [[v m]|e]; done.
Qed.

(** A rebuild that ends without an exception and finds at least one chunk
    leaves an indexer on which [search] does not raise the missing-index
    error. *)
Lemma index_all_builds_index `{Markdown} `{Floats} `{!Tfidf} (md_files : list md_file)
    (self : LiteSpecsIndexer.t) :
  snd (LiteSpecsIndexer.index_all md_files self) = Py.Ok tt ->
  corpus_documents md_files <> [] ->
  LiteSpecsIndexer.is_indexed
    (LiteSpecsIndexer.db
       (LiteSpecsIndexer.loaded (fst (LiteSpecsIndexer.index_all md_files self))))
  = true.
Proof.
  rewrite lite_index_all_eq. intros Hok Hdocs.
  destruct md_files as [|file rest]; [done|].
  revert Hok Hdocs.
  generalize (corpus_documents (file :: rest)) (corpus_metadata (file :: rest)).
  intros D M Hok Hdocs. destruct D as [|d ds]; [done|].
  cbv zeta in *.
  by destruct (fit_transform (d :: ds)) as [[v m]|e].
Qed.

(** ** Chunk ids *)

Lemma digits_no_underscore (d : Decimal.uint) :
  has_char "_" (NilEmpty.string_of_uint d) = false.
Proof. induction d; simpl; done. Qed.

Lemma str_no_underscore (i : nat) : has_char "_" (Py.str (Z.of_nat i)) = false.
Proof.
  unfold Py.str. destruct (Z.of_nat i) as [|p|p] eqn:Hi; [done| |lia].
  apply digits_no_underscore.
Qed.

Lemma str_inj (a b : Z) : Py.str a = Py.str b -> a = b.
Proof.
  unfold Py.str. intros Heq.
  apply (f_equal NilEmpty.int_of_string) in Heq.
  rewrite !NilEmpty.isi in Heq. injection Heq as Heq.
  apply (f_equal Z.of_int) in Heq. by rewrite !DecimalZ.of_to in Heq.
Qed.

Lemma str_app_cons (x : ascii) (a b : string) :
  String x a +:+ b = String x (a +:+ b).
Proof. reflexivity. Qed.

Lemma str_app_nil_l (b : string) : EmptyString +:+ b = b.
Proof. reflexivity. Qed.

Lemma has_char_app (c : ascii) (a b : string) :
  has_char c (a +:+ String c b) = true.
Proof.
  induction a as [|x a IH].
  - simpl. by destruct (ascii_dec c c).
  - rewrite str_app_cons. simpl. by destruct (ascii_dec x c).
Qed.

(** The path and the index are read back from an id at its last
    underscore. *)
Lemma id_split (p1 p2 d1 d2 : string) :
  has_char "_" d1 = false -> has_char "_" d2 = false ->
  p1 +:+ "_" +:+ d1 = p2 +:+ "_" +:+ d2 ->
  p1 = p2 /\ d1 = d2.
Proof.
  intros H1 H2. change ("_" +:+ d1) with (String "_" d1).
  change ("_" +:+ d2) with (String "_" d2).
  revert p2. induction p1 as [|x p1 IH]; intros [|y p2] Heq;
    rewrite ?str_app_cons, ?str_app_nil_l in Heq.
  - by injection Heq as ->.
  - injection Heq as <- ->.
    pose proof (has_char_app "_" p2 d2) as Hc. congruence.
  - injection Heq as -> <-.
    pose proof (has_char_app "_" p1 d1) as Hc. congruence.
  - injection Heq as -> Heq. apply IH in Heq as [-> ->]. done.
Qed.

Lemma chunk_id_inj (p1 p2 : string) (i j : nat) :
  chunk_id p1 i = chunk_id p2 j -> p1 = p2 /\ i = j.
Proof.
  intros Heq. apply id_split in Heq as [-> Heq]; try apply str_no_underscore.
  split; [done|]. apply str_inj in Heq. lia.
Qed.

Lemma zip_imap {A B C} (f : nat -> A -> B) (g : nat -> A -> C) (l : list A) :
  zip (zip (imap f l) l) (imap g l) = imap (fun i x => (f i x, x, g i x)) l.
Proof.
  revert f g. induction l as [|x l IH]; intros f g; [done|].
  rewrite !imap_cons. simpl. f_equal. apply IH.
Qed.

Lemma extract_file_path `{Markdown} (file : md_file) (doc_data : string * doc_metadata) :
  MarkdownParser.extract_markdown_content file = Py.Ok doc_data ->
  file_path (snd doc_data) = relative_path file.
Proof.
  unfold MarkdownParser.extract_markdown_content.
  destruct (text file); [|done]. by intros [= <-].
Qed.

Lemma store_step `{Encoding} `{Markdown} (file : md_file)
    (c : @collection Fixtures.centi Fixtures.list_store) :
  match @SpecsIndexer.index_file _ _ Fixtures.centi Fixtures.list_store file c with
  | Py.Ok c' => c'
  | Py.Raise _ => c
  end
  = c ++ stored_entries file.
Proof.
  unfold SpecsIndexer.index_file, stored_entries.
  destruct (MarkdownParser.extract_markdown_content file) as [doc_data|e] eqn:Hx;
    cbn [Py.bind]; [|by rewrite app_nil_r].
  destruct (SpecsIndexer.chunk_content (fst doc_data) 1000 200) as [chunks|e];
    cbn [Py.bind]; [|by rewrite app_nil_r].
  unfold SpecsIndexer.file_batch.
  cbn [collection_add Fixtures.list_store].
  rewrite !length_imap, Nat.eqb_refl.
  destruct chunks as [|chunk chunks]; [simpl; by rewrite app_nil_r|].
  cbn [length Nat.eqb negb andb]. f_equal.
  rewrite (extract_file_path file doc_data Hx).
  apply (zip_imap (fun i _ => chunk_id (relative_path file) i)).
Qed.

Lemma store_fold `{Encoding} `{Markdown} (md_files : list md_file)
    (c : @collection Fixtures.centi Fixtures.list_store) :
  foldl (fun self file =>
           match @SpecsIndexer.index_file _ _ Fixtures.centi Fixtures.list_store
                   file self with
           | Py.Ok self' => self'
           | Py.Raise _ => self
           end) c md_files
  = c ++ concat (stored_entries <$> md_files).
Proof.
  revert c. induction md_files as [|file rest IH]; intros c; simpl.
  - by rewrite app_nil_r.
  - rewrite store_step, IH. by rewrite app_assoc.
Qed.

Lemma store_index_all `{Encoding} `{Markdown} (md_files : list md_file)
    (self : @collection Fixtures.centi Fixtures.list_store) :
  @SpecsIndexer.index_all _ _ Fixtures.centi Fixtures.list_store md_files self
  = concat (stored_entries <$> md_files).
Proof.
  unfold SpecsIndexer.index_all. destruct md_files as [|file rest]; [done|].
  apply (store_fold (file :: rest) []).
Qed.

Lemma stored_entries_ids `{Encoding} `{Markdown} (file : md_file) :
  exists n : nat,
    entry_id <$> stored_entries file = chunk_id (relative_path file) <$> seq 0 n.
Proof.
  unfold stored_entries.
  destruct (MarkdownParser.extract_markdown_content file) as [doc_data|e];
    [|by exists 0%nat].
  destruct (SpecsIndexer.chunk_content _ _ _) as [chunks|e]; [|by exists 0%nat].
  exists (length chunks). rewrite fmap_imap.
  apply (imap_seq_0 chunks (chunk_id (relative_path file))).
Qed.

Lemma stored_entries_id_form `{Encoding} `{Markdown} (file : md_file) :
  Forall (fun e => entry_id e
                   = file_path (doc (snd e)) +:+ "_" +:+ Py.str (chunk_index (snd e)))
    (stored_entries file).
Proof.
  unfold stored_entries.
  destruct (MarkdownParser.extract_markdown_content file) as [doc_data|e] eqn:Hx;
    [|constructor].
  destruct (SpecsIndexer.chunk_content _ _ _) as [chunks|e]; [|constructor].
  apply Forall_forall. intros e He.
  apply elem_of_lookup_imap_1 in He as (i & chunk & -> & _).
  simpl. by rewrite (extract_file_path file doc_data Hx).
Qed.

Lemma corpus_ids_origin `{Encoding} `{Markdown} (md_files : list md_file) (id : string) :
  id ∈ entry_id <$> concat (stored_entries <$> md_files) ->
  exists (file : md_file) (i : nat),
    file ∈ md_files /\ id = chunk_id (relative_path file) i.
Proof.
  induction md_files as [|file rest IH]; simpl.
  - intros Hin. by apply elem_of_nil in Hin.
  - rewrite fmap_app, elem_of_app. intros [Hin|Hin].
    + destruct (stored_entries_ids file) as [n Hn]. rewrite Hn in Hin.
      apply list_elem_of_fmap in Hin as (i & -> & _).
      exists file, i. split; [left|done].
    + destruct (IH Hin) as (file' & i & Hf & ->).
      exists file', i. split; [by right|done].
Qed.

Lemma corpus_ids_NoDup `{Encoding} `{Markdown} (md_files : list md_file) :
  NoDup (relative_path <$> md_files) ->
  NoDup (entry_id <$> concat (stored_entries <$> md_files)).
Proof.
  induction md_files as [|file rest IH]; simpl; [constructor|].
  rewrite NoDup_cons. intros [Hfresh Hrest].
  rewrite fmap_app. apply NoDup_app. split; [|split].
  - destruct (stored_entries_ids file) as [n ->].
    apply NoDup_fmap_2_strong; [|apply NoDup_seq].
    intros i j _ _ Heq. by apply chunk_id_inj in Heq as [_ ->].
  - intros id Hin Hin'.
    destruct (stored_entries_ids file) as [n Hn]. rewrite Hn in Hin.
    apply list_elem_of_fmap in Hin as (i & -> & _).
    apply corpus_ids_origin in Hin' as (file' & j & Hf & Heq).
    apply chunk_id_inj in Heq as [Hpath _].
    apply Hfresh. rewrite Hpath. by apply list_elem_of_fmap_2.
  - by apply IH.
Qed.

(** C6: the chunks of a file get the chunk indices 0, 1, ... in order and
    the ids [{file_path}_{chunk_index}]; and over a corpus whose files have
    distinct relative paths, the ids that [index_all] hands to the store
    (read from the store that keeps what it is sent) are pairwise distinct,
    each being the path and the chunk index of its own metadata. *)
Theorem chunk_ids_unique `{Encoding} `{Markdown} :
  (forall (metadata : doc_metadata) (chunks : list string),
      let batch := SpecsIndexer.file_batch metadata chunks in
      fst (fst batch) = chunks
      /\ chunk_index <$> snd (fst batch) = Z.of_nat <$> seq 0 (length chunks)
      /\ Forall (fun m => doc m = metadata) (snd (fst batch))
      /\ snd batch
         = (fun i : nat => file_path metadata +:+ "_" +:+ Py.str (Z.of_nat i))
           <$> seq 0 (length chunks))
  /\ (forall (path path' : string) (i j : nat),
        path +:+ "_" +:+ Py.str (Z.of_nat i) = path' +:+ "_" +:+ Py.str (Z.of_nat j) ->
        path = path' /\ i = j)
  /\ (forall (md_files : list md_file)
             (self : @collection Fixtures.centi Fixtures.list_store),
         NoDup (relative_path <$> md_files) ->
         let stored :=
           @SpecsIndexer.index_all _ _ Fixtures.centi Fixtures.list_store
             md_files self in
         NoDup (entry_id <$> stored)
         /\ Forall (fun e => entry_id e
                             = file_path (doc (snd e)) +:+ "_"
                               +:+ Py.str (chunk_index (snd e))) stored).
Proof.
  split.
  - intros metadata chunks batch. subst batch. unfold SpecsIndexer.file_batch.
    simpl. split; [done|]. split; [|split].
    + rewrite fmap_imap. apply (imap_seq_0 chunks Z.of_nat).
    + apply Forall_forall. intros m Hm.
      by apply elem_of_lookup_imap_1 in Hm as (i & chunk & -> & _).
    + apply (imap_seq_0 chunks
               (fun i : nat => file_path metadata +:+ "_" +:+ Py.str (Z.of_nat i))).
  - split; [intros path path' i j; apply chunk_id_inj|].
    intros md_files self Hpaths stored. subst stored.
    rewrite store_index_all. split; [by apply corpus_ids_NoDup|].
    clear Hpaths. induction md_files as [|file rest IH]; simpl; [constructor|].
    apply Forall_app. split; [apply stored_entries_id_form | apply IH].
Qed.

Lemma chunk_ids_unique_witness :
  NoDup (relative_path <$> Fixtures.five_chunk_files)
  /\ entry_id
     <$> @SpecsIndexer.index_all Fixtures.char_encoding Fixtures.no_headings
           Fixtures.centi Fixtures.list_store Fixtures.five_chunk_files []
     = ["a/x.md_0"; "a/x.md_1"; "b/y.md_0"; "b/y.md_1"; "b/y.md_2"]
  /\ NoDup (entry_id
            <$> @SpecsIndexer.index_all Fixtures.char_encoding Fixtures.no_headings
                  Fixtures.centi Fixtures.list_store Fixtures.five_chunk_files []).
Proof.
  assert (Hpaths : NoDup (relative_path <$> Fixtures.five_chunk_files))
    by (apply (bool_decide_unpack _); vm_compute; exact I).
  split; [exact Hpaths|]. split; [vm_compute; reflexivity|].
  exact (proj1 (proj2 (proj2 (@chunk_ids_unique Fixtures.char_encoding
                                Fixtures.no_headings))
                  Fixtures.five_chunk_files [] Hpaths)).
Defined.

(** ** What a rebuild leaves in the index *)

Lemma specs_index_step `{Encoding} `{Markdown} `{Floats} `{!VectorStore}
    (file : md_file) (c : collection) :
  match SpecsIndexer.index_file file c with
  | Py.Ok c' => c'
  | Py.Raise _ => c
  end
  = submit c (file_submission file).
Proof.
  unfold SpecsIndexer.index_file, file_submission, submit.
  destruct (MarkdownParser.extract_markdown_content file) as [doc_data|e] eqn:Hx;
    cbn [Py.bind]; [|done].
  destruct (SpecsIndexer.chunk_content (fst doc_data) 1000 200) as [chunks|e];
    cbn [Py.bind]; [|done].
  unfold SpecsIndexer.file_batch, chunk_id.
  by rewrite (extract_file_path file doc_data Hx).
Qed.

Lemma specs_index_all_submits `{Encoding} `{Markdown} `{Floats} `{!VectorStore}
    (md_files : list md_file) (self : collection) :
  SpecsIndexer.index_all md_files self
  = foldl submit empty_collection (file_submission <$> md_files).
Proof.
  unfold SpecsIndexer.index_all.
  assert (Hfold : forall c : collection,
             foldl (fun self file =>
                      match SpecsIndexer.index_file file self with
                      | Py.Ok self' => self'
                      | Py.Raise _ => self
                      end) c md_files
             = foldl submit c (file_submission <$> md_files)).
  { induction md_files as [|file rest IH]; intros c; [done|].
    cbn [foldl fmap list_fmap]. by rewrite specs_index_step, IH. }
  destruct md_files as [|file rest]; [done|]. apply Hfold.
Qed.

(** C7: a second [index_all] over the same files leaves the index as the
    first one made it, with the same outcome; the chunks and the metadata
    after a rebuild are those of the files alone, whatever the index held
    before.  For the vector store, the rebuild empties the collection and
    then submits, file after file, one batch per file that can be read and
    chunked: the chunks, their metadata and their ids; so its result does
    not depend on the collection it is given, and in the store that keeps
    what it is sent the collection after a rebuild holds the ids, the
    chunk texts and the metadata of the files, in order, and nothing
    else, after the second run as after the first. *)
Theorem reindexing_is_idempotent `{Encoding} `{Markdown} `{Floats} `{!Tfidf}
    `{!VectorStore} (md_files : list md_file) :
  (forall self : LiteSpecsIndexer.t,
      LiteSpecsIndexer.index_all md_files
        (fst (LiteSpecsIndexer.index_all md_files self))
      = LiteSpecsIndexer.index_all md_files self)
  /\ (forall self : LiteSpecsIndexer.t,
        let rebuilt := LiteSpecsIndexer.db (fst (LiteSpecsIndexer.index_all md_files self)) in
        LiteSpecsIndexer.documents rebuilt
        = match md_files with [] => [] | _ => corpus_documents md_files end
        /\ LiteSpecsIndexer.metadata rebuilt
           = match md_files with [] => [] | _ => corpus_metadata md_files end)
  /\ (forall self : collection,
        SpecsIndexer.index_all md_files (SpecsIndexer.index_all md_files self)
        = SpecsIndexer.index_all md_files self)
  /\ (forall self self' : collection,
        SpecsIndexer.index_all md_files self = SpecsIndexer.index_all md_files self')
  /\ (forall self : collection,
        SpecsIndexer.index_all md_files self
        = foldl submit empty_collection (file_submission <$> md_files))
  /\ (forall self : @collection Fixtures.centi Fixtures.list_store,
        let once :=
          @SpecsIndexer.index_all _ _ Fixtures.centi Fixtures.list_store
            md_files self in
        let twice :=
          @SpecsIndexer.index_all _ _ Fixtures.centi Fixtures.list_store
            md_files once in
        once = concat (stored_entries <$> md_files)
        /\ twice = concat (stored_entries <$> md_files)
        /\ length twice = length once
        /\ entry_id <$> twice = entry_id <$> once
        /\ (fun e => snd (fst e)) <$> twice = (fun e => snd (fst e)) <$> once
        /\ snd <$> twice = snd <$> once).
Proof.
  split; [|split; [|split; [|split; [|split]]]].
  - intros self. rewrite !lite_index_all_eq.
    destruct md_files as [|file rest]; [by destruct self as [[] ?]|].
    generalize (corpus_documents (file :: rest)) (corpus_metadata (file :: rest)).
    intros D M. destruct D as [|d ds]; [by destruct self as [[] ?]|].
    cbv zeta.
    destruct (fit_transform (d :: ds)) as [[v m]|e]; cbn [fst].
    + done.
    + by destruct self as [[] ?].
  - intros self rebuilt. subst rebuilt. rewrite lite_index_all_eq.
    destruct md_files as [|file rest]; [done|].
    generalize (corpus_documents (file :: rest)) (corpus_metadata (file :: rest)).
    intros D M. destruct D as [|d ds]; [done|].
    cbv zeta. by destruct (fit_transform (d :: ds)) as [[v m]|e].
  - intros self. by rewrite !specs_index_all_submits.
  - intros self self'. by rewrite !specs_index_all_submits.
  - intros self. apply specs_index_all_submits.
  - intros self once twice. subst once twice.
    by rewrite !store_index_all.
Qed.

(** * Further properties of the indexers and the query tools *)

(** ** Metadata extraction *)

Lemma find_first_h1 (pre post : list (Z * string)) (t : string) :
  Forall (fun element => fst element <> 1) pre ->
  List.find (fun element => fst element =? 1) (pre ++ (1, t) :: post) = Some (1, t).
Proof.
  induction 1 as [|element pre Hne _ IH]; simpl; [done|].
  destruct (Z.eqb_spec (fst element) 1); [done|exact IH].
Qed.

Lemma find_no_h1 (soup : list (Z * string)) :
  Forall (fun element => fst element <> 1) soup ->
  List.find (fun element => fst element =? 1) soup = None.
Proof.
  induction 1 as [|element soup Hne _ IH]; simpl; [done|].
  destruct (Z.eqb_spec (fst element) 1); [done|exact IH].
Qed.

(** X1: the title is the stripped text of the first level-1 heading,
    whatever headings of other levels come before it, and it is
    [Untitled] when no heading has level 1. *)
Theorem extract_title_first_h1 (soup : list (Z * string)) :
  Forall (fun element => fst element <> 1) soup ->
  MarkdownParser._extract_title soup = "Untitled"
  /\ forall (t : string) (post : list (Z * string)),
       MarkdownParser._extract_title (soup ++ (1, t) :: post) = Py.strip t.
Proof.
  intros Hno. unfold MarkdownParser._extract_title. split.
  - by rewrite find_no_h1.
  - intros t post. by rewrite find_first_h1.
Qed.

Lemma extract_title_first_h1_witness :
  Forall (fun element : Z * string => fst element <> 1) [(2, "Intro")]
  /\ MarkdownParser._extract_title [(2, "Intro")] = "Untitled"
  /\ MarkdownParser._extract_title [(2, "Intro"); (1, " Hello World "); (1, "Other")]
     = "Hello World".
Proof.
  assert (Hno : Forall (fun element : Z * string => fst element <> 1) [(2, "Intro")])
    by (repeat constructor; simpl; lia).
  split; [exact Hno|].
  destruct (extract_title_first_h1 [(2, "Intro")] Hno) as [Hnone Hfirst].
  split; [exact Hnone|].
  exact (Hfirst " Hello World " [(1, "Other")]).
Defined.

Lemma sections_loop_spec (elements : list (Z * string))
    (sections : list Section_info.t) (current_section : option Section_info.t) :
  let result := MarkdownParser.sections_loop elements sections current_section in
  fst result ++ option_list (snd result)
  = sections ++ option_list current_section ++ (section_of <$> elements).
Proof.
  revert sections current_section.
  induction elements as [|element rest IH]; intros sections current_section; simpl.
  - by rewrite app_nil_r.
  - rewrite IH. destruct current_section as [s|]; simpl; [|done].
    by rewrite <- app_assoc.
Qed.

(** X2: the sections list has one entry per heading element, in document
    order, with the level and the stripped text of the heading and an
    empty content. *)
Theorem extract_sections_per_heading (soup : list (Z * string)) :
  MarkdownParser._extract_sections soup = section_of <$> soup
  /\ length (MarkdownParser._extract_sections soup) = length soup
  /\ Forall (fun s => Section_info.content s = EmptyString)
       (MarkdownParser._extract_sections soup).
Proof.
  assert (Heq : MarkdownParser._extract_sections soup = section_of <$> soup).
  { unfold MarkdownParser._extract_sections.
    pose proof (sections_loop_spec soup [] None) as Hspec.
    destruct (MarkdownParser.sections_loop soup [] None) as [sections current].
    simpl in Hspec. rewrite <- Hspec. by destruct current; simpl; rewrite ?app_nil_r. }
  rewrite Heq. split; [done|]. split; [by rewrite length_fmap|].
  apply Forall_fmap, Forall_forall. done.
Qed.

(** ** Chunk previews *)

Lemma str_len_app (a b : string) : Py.str_len (a +:+ b) = Py.str_len a + Py.str_len b.
Proof.
  unfold Py.str_len. induction a as [|x a IH];
    [rewrite str_app_nil_l; simpl; lia|].
  rewrite str_app_cons. simpl String.length. lia.
Qed.

Lemma substring_length (n : nat) (s : string) :
  String.length (String.substring 0 n s) = (n `min` String.length s)%nat.
Proof.
  revert n. induction s as [|c s IH]; intros [|n]; simpl; try done.
  by rewrite IH.
Qed.

Lemma substring_all (n : nat) (s : string) :
  (String.length s <= n)%nat -> String.substring 0 n s = s.
Proof.
  revert n. induction s as [|c s IH]; intros [|n]; simpl; try done.
  - intros Hn. exfalso. lia.
  - intros Hn. rewrite IH by lia. done.
Qed.

Lemma preview_of_length (chunk : string) :
  Py.str_len (preview_of chunk)
  = if 200 <? Py.str_len chunk then 203 else Py.str_len chunk.
Proof.
  unfold preview_of. destruct (Z.ltb_spec 200 (Py.str_len chunk)) as [Hlong|]; [|done].
  rewrite str_len_app. unfold Py.str_len, Py.str_slice_to in *.
  rewrite substring_length. simpl String.length. lia.
Qed.

Lemma preview_of_prefix (chunk : string) :
  String.prefix (Py.str_slice_to chunk 200) (preview_of chunk) = true.
Proof.
  unfold preview_of. destruct (Z.ltb_spec 200 (Py.str_len chunk)) as [Hlong|Hshort].
  - apply str_prefix_app.
  - unfold Py.str_slice_to, Py.str_len in *. rewrite substring_all by lia.
    rewrite <- (str_app_nil_r chunk) at 2. apply str_prefix_app.
Qed.

Lemma imap_chunk_described (metadata : doc_metadata) (chunks : list string)
    (i : nat) (m : chunk_metadata) :
  imap (MarkdownParser.chunk_metadata_of metadata chunks) chunks !! i = Some m ->
  exists chunk : string, chunk_described metadata chunks i chunk m.
Proof.
  rewrite list_lookup_imap. destruct (chunks !! i) as [chunk|] eqn:Hi; [|done].
  intros [= <-]. by exists chunk.
Qed.

(** X3: the metadata that [index_file] builds at position [i] of a file's
    chunks belongs to the chunk at that position: it carries the document
    metadata, [chunk_index = i], [chunk_total] the number of chunks, and as
    preview the chunk itself when it has at most 200 characters and
    otherwise its first 200 characters followed by three dots.  This holds
    for the batch that the vector-store indexer submits and for what the
    TF-IDF indexer appends to its documents and metadata.  Hence the
    chunk index lies below the chunk total, and the preview has at most
    203 characters and starts like the chunk. *)
Theorem chunk_preview_bounded `{Markdown} `{Floats} `{!Tfidf} :
  (forall (metadata : doc_metadata) (chunks : list string) (i : nat)
          (m : chunk_metadata),
      snd (fst (SpecsIndexer.file_batch metadata chunks)) !! i = Some m ->
      exists chunk : string,
        fst (fst (SpecsIndexer.file_batch metadata chunks)) !! i = Some chunk
        /\ chunk_described metadata chunks i chunk m)
  /\ (forall (file : md_file) (self self' : LiteSpecsIndexer.t) (i : nat)
             (m : chunk_metadata),
         LiteSpecsIndexer.index_file file self = Py.Ok self' ->
         LiteSpecsIndexer.metadata (LiteSpecsIndexer.db self')
           !! (length (LiteSpecsIndexer.metadata (LiteSpecsIndexer.db self)) + i)%nat
         = Some m ->
         exists (doc_data : string * doc_metadata) (chunks : list string)
                (chunk : string),
           MarkdownParser.extract_markdown_content file = Py.Ok doc_data
           /\ LiteSpecsIndexer.chunk_content (fst doc_data) 1000 200 = Py.Ok chunks
           /\ LiteSpecsIndexer.documents (LiteSpecsIndexer.db self')
                !! (length (LiteSpecsIndexer.documents (LiteSpecsIndexer.db self)) + i)%nat
              = Some chunk
           /\ chunk_described (snd doc_data) chunks i chunk m)
  /\ (forall (metadata : doc_metadata) (chunks : list string) (i : nat)
             (chunk : string) (m : chunk_metadata),
         chunk_described metadata chunks i chunk m ->
         0 <= chunk_index m < chunk_total m
         /\ Py.str_len (chunk_preview m)
            = (if 200 <? Py.str_len chunk then 203 else Py.str_len chunk)
         /\ Py.str_len (chunk_preview m) <= 203
         /\ String.prefix (Py.str_slice_to chunk 200) (chunk_preview m) = true).
Proof.
  split; [|split].
  - intros metadata chunks i m Hm. unfold SpecsIndexer.file_batch in *.
    cbn [fst snd] in *.
    destruct (imap_chunk_described _ _ _ _ Hm) as [chunk Hd].
    exists chunk. split; [apply Hd | exact Hd].
  - intros file self self' i m Hfile Hm.
    unfold LiteSpecsIndexer.index_file in Hfile.
    destruct (MarkdownParser.extract_markdown_content file) as [doc_data|e];
      cbn [Py.bind] in Hfile; [|done].
    destruct (LiteSpecsIndexer.chunk_content (fst doc_data) 1000 200)
      as [chunks|e] eqn:Hchunks; cbn [Py.bind] in Hfile; [|done].
    injection Hfile as <-. simpl in Hm |- *.
    rewrite lookup_app_r, Nat.add_comm, Nat.add_sub in Hm by lia.
    destruct (imap_chunk_described _ _ _ _ Hm) as [chunk Hd].
    exists doc_data, chunks, chunk. split; [done|]. split; [done|].
    split; [|exact Hd].
    rewrite lookup_app_r, Nat.add_comm, Nat.add_sub by lia. apply Hd.
  - intros metadata chunks i chunk m (Hi & _ & Hindex & Htotal & Hpreview).
    rewrite Hindex, Htotal, Hpreview. fold (preview_of chunk).
    apply lookup_lt_Some in Hi. unfold Py.len.
    split; [lia|]. split; [apply preview_of_length|]. split; [|apply preview_of_prefix].
    rewrite preview_of_length. destruct (Z.ltb_spec 200 (Py.str_len chunk)); lia.
Qed.

Lemma chunk_preview_bounded_witness :
  exists (m : chunk_metadata) (chunk : string),
    snd (fst (SpecsIndexer.file_batch (doc (Fixtures.plain_metadata "a.md"))
                ["ab"; Py.repeat_char "c" 201]))
      !! 1%nat = Some m
    /\ chunk = Py.repeat_char "c" 201
    /\ chunk_index m = 1 /\ chunk_total m = 2
    /\ chunk_preview m = Py.repeat_char "c" 200 +:+ "..."
    /\ Py.str_len (chunk_preview m) <= 203.
Proof.
  eexists.
  destruct (proj1 (@chunk_preview_bounded Fixtures.no_headings Fixtures.centi
                     Fixtures.word_overlap)
              (doc (Fixtures.plain_metadata "a.md"))
              ["ab"; Py.repeat_char "c" 201] 1%nat _ eq_refl)
    as (chunk & Hchunk & Hd).
  exists chunk. split; [reflexivity|].
  split; [vm_compute in Hchunk; injection Hchunk as <-; reflexivity|].
  split; [reflexivity|]. split; [reflexivity|]. split; [reflexivity|].
  exact (proj1 (proj2 (proj2
           (proj2 (proj2 (@chunk_preview_bounded Fixtures.no_headings Fixtures.centi
                            Fixtures.word_overlap))
              _ _ _ _ _ Hd)))).
Defined.

(** ** The TF-IDF index: alignment, search and persistence *)

Lemma Forall2_imap_r {A B} (P : A -> B -> Prop) (f : nat -> A -> B) (l : list A) :
  (forall (i : nat) (x : A), l !! i = Some x -> P x (f i x)) ->
  Forall2 P l (imap f l).
Proof.
  intros HP. apply Forall2_same_length_lookup_2; [by rewrite length_imap|].
  intros i x y Hx Hy. rewrite list_lookup_imap, Hx in Hy.
  injection Hy as <-. by apply HP.
Qed.

Lemma file_chunks_ok `{Markdown} (file : md_file) :
  Forall2 chunk_entry_ok (fst (file_chunks file)) (snd (file_chunks file)).
Proof.
  unfold file_chunks.
  destruct (MarkdownParser.extract_markdown_content file) as [doc_data|e];
    [|constructor].
  destruct (LiteSpecsIndexer.chunk_content _ _ _) as [chunks|e]; [|constructor].
  apply Forall2_imap_r. intros i chunk Hi. split; [done|].
  apply lookup_lt_Some in Hi. simpl. unfold Py.len. lia.
Qed.

Lemma file_chunks_path `{Markdown} (file : md_file) :
  Forall (fun meta => file_path (doc meta) = relative_path file)
    (snd (file_chunks file)).
Proof.
  unfold file_chunks.
  destruct (MarkdownParser.extract_markdown_content file) as [doc_data|e] eqn:Hx;
    [|constructor].
  destruct (LiteSpecsIndexer.chunk_content _ _ _) as [chunks|e]; [|constructor].
  apply Forall_forall. intros meta Hm.
  apply elem_of_lookup_imap_1 in Hm as (i & chunk & -> & _). simpl.
  by apply extract_file_path.
Qed.

Lemma corpus_chunks_ok `{Markdown} (md_files : list md_file) :
  Forall2 chunk_entry_ok (corpus_documents md_files) (corpus_metadata md_files).
Proof.
  unfold corpus_documents, corpus_metadata.
  induction md_files as [|file rest IH]; simpl; [constructor|].
  apply Forall2_app; [apply file_chunks_ok | exact IH].
Qed.

Lemma corpus_metadata_paths `{Markdown} (md_files : list md_file) :
  Forall (fun meta => file_path (doc meta) ∈ relative_path <$> md_files)
    (corpus_metadata md_files).
Proof.
  unfold corpus_metadata.
  induction md_files as [|file rest IH]; simpl; [constructor|].
  apply Forall_app. split.
  - eapply Forall_impl; [apply file_chunks_path|].
    intros meta ->. left.
  - eapply Forall_impl; [exact IH|]. intros meta Hm. by right.
Qed.

(** The chunks in memory after a rebuild, whatever its outcome. *)
Lemma lite_index_all_chunks `{Markdown} `{Floats} `{!Tfidf} (md_files : list md_file)
    (self : LiteSpecsIndexer.t) :
  let rebuilt := LiteSpecsIndexer.db (fst (LiteSpecsIndexer.index_all md_files self)) in
  LiteSpecsIndexer.documents rebuilt = corpus_documents md_files
  /\ LiteSpecsIndexer.metadata rebuilt = corpus_metadata md_files.
Proof.
  intros rebuilt. subst rebuilt. rewrite lite_index_all_eq.
  destruct md_files as [|file rest]; [done|].
  generalize (corpus_documents (file :: rest)) (corpus_metadata (file :: rest)).
  intros D M. destruct D as [|d ds]; [done|].
  cbv zeta. by destruct (fit_transform (d :: ds)) as [[v m]|e].
Qed.

(** X4: after [index_all], whatever its outcome, the documents and the
    metadata of the indexer have the same length; the metadata at a
    position holds the preview of the document at that position and a
    chunk index below its chunk total, and its file path is the relative
    path of one of the files. *)
Theorem index_all_keeps_alignment `{Markdown} `{Floats} `{!Tfidf}
    (md_files : list md_file) (self : LiteSpecsIndexer.t) :
  let rebuilt := LiteSpecsIndexer.db (fst (LiteSpecsIndexer.index_all md_files self)) in
  Forall2 chunk_entry_ok
    (LiteSpecsIndexer.documents rebuilt) (LiteSpecsIndexer.metadata rebuilt)
  /\ Py.len (LiteSpecsIndexer.documents rebuilt)
     = Py.len (LiteSpecsIndexer.metadata rebuilt)
  /\ Forall (fun meta => file_path (doc meta) ∈ relative_path <$> md_files)
       (LiteSpecsIndexer.metadata rebuilt).
Proof.
  intros rebuilt.
  destruct (lite_index_all_chunks md_files self) as [Hd Hm].
  fold rebuilt in Hd, Hm. rewrite Hd, Hm.
  split; [apply corpus_chunks_ok|]. split; [|apply corpus_metadata_paths].
  unfold Py.len. f_equal. apply (Forall2_length _ _ _ (corpus_chunks_ok md_files)).
Qed.

Lemma results_loop_sound `{Floats} `{!Tfidf} (self : LiteSpecsIndexer.t)
    (sims : list float) (top : list nat)
    (acc results : list LiteSpecsIndexer.search_result)
    (P : LiteSpecsIndexer.search_result -> Prop) :
  (forall (idx : nat) (score : float) (content : string) (meta : chunk_metadata),
      sims !! idx = Some score -> float_pos score = true ->
      LiteSpecsIndexer.documents (LiteSpecsIndexer.db self) !! idx = Some content ->
      LiteSpecsIndexer.metadata (LiteSpecsIndexer.db self) !! idx = Some meta ->
      P {| LiteSpecsIndexer.result_content := content;
           LiteSpecsIndexer.result_metadata := meta;
           LiteSpecsIndexer.similarity_score := score;
           LiteSpecsIndexer.result_chunk_index := idx |}) ->
  LiteSpecsIndexer.results_loop self sims top acc = Py.Ok results ->
  Forall P acc -> Forall P results.
Proof.
  intros HP. revert acc. induction top as [|idx top IH]; intros acc; simpl.
  - by intros [= <-].
  - unfold Py.index.
    destruct (sims !! idx) as [score|] eqn:Hs; simpl; [|done].
    destruct (float_pos score) eqn:Hpos; [|apply IH].
    destruct (LiteSpecsIndexer.documents _ !! idx) as [c|] eqn:Hc; simpl; [|done].
    destruct (LiteSpecsIndexer.metadata _ !! idx) as [m|] eqn:Hm; simpl; [|done].
    intros Hr Hacc. apply (IH _ Hr). apply Forall_app. split; [done|].
    constructor; [|constructor]. by apply HP.
Qed.

(** X5: every result that [search] returns has a positive similarity, and
    its content and metadata are the document and the metadata stored at
    its chunk index; a search that returns leaves the indexer indexed. *)
Theorem search_results_are_stored_matches `{Floats} `{!Tfidf}
    (self : LiteSpecsIndexer.t) (query : string) (n_results : Z)
    (results : list LiteSpecsIndexer.search_result) :
  snd (LiteSpecsIndexer.search self query n_results) = Py.Ok results ->
  let db := LiteSpecsIndexer.db (fst (LiteSpecsIndexer.search self query n_results)) in
  LiteSpecsIndexer.is_indexed db = true
  /\ Forall (fun r =>
               float_pos (LiteSpecsIndexer.similarity_score r) = true
               /\ LiteSpecsIndexer.documents db !! LiteSpecsIndexer.result_chunk_index r
                  = Some (LiteSpecsIndexer.result_content r)
               /\ LiteSpecsIndexer.metadata db !! LiteSpecsIndexer.result_chunk_index r
                  = Some (LiteSpecsIndexer.result_metadata r)) results.
Proof.
  unfold LiteSpecsIndexer.search.
  destruct (LiteSpecsIndexer.is_indexed _) eqn:Hix; simpl; [|done].
  intros Hr. split; [done|].
  eapply results_loop_sound; [|exact Hr|constructor].
  intros idx score content meta _ Hpos Hc Hm. simpl. done.
Qed.

Lemma search_results_are_stored_matches_witness :
  exists results : list LiteSpecsIndexer.search_result,
    snd (LiteSpecsIndexer.search Fixtures.lite_indexer "beta" 5) = Py.Ok results
    /\ length results = 1%nat
    /\ Forall (fun r =>
                 @float_pos Fixtures.centi (LiteSpecsIndexer.similarity_score r) = true
                 /\ ["alpha beta"; "alpha gamma"] !! LiteSpecsIndexer.result_chunk_index r
                    = Some (LiteSpecsIndexer.result_content r)) results.
Proof.
  eexists. split; [reflexivity|]. split; [reflexivity|].
  destruct (@search_results_are_stored_matches Fixtures.centi Fixtures.word_overlap
              Fixtures.lite_indexer "beta" 5 _ eq_refl) as [_ Hall].
  eapply Forall_impl; [exact Hall|].
  intros r (Hpos & Hdoc & _). split; [exact Hpos | exact Hdoc].
Defined.

Lemma results_loop_returns `{Floats} `{!Tfidf} (self : LiteSpecsIndexer.t)
    (sims : list float) (top : list nat) (acc : list LiteSpecsIndexer.search_result) :
  length sims = length (LiteSpecsIndexer.documents (LiteSpecsIndexer.db self)) ->
  length sims = length (LiteSpecsIndexer.metadata (LiteSpecsIndexer.db self)) ->
  Forall (fun idx => (idx < length sims)%nat) top ->
  exists results, LiteSpecsIndexer.results_loop self sims top acc = Py.Ok results.
Proof.
  intros Hd Hm Htop. revert acc.
  induction Htop as [|idx top Hidx _ IH]; intros acc; simpl; [by eexists|].
  unfold Py.index.
  destruct (lookup_lt_is_Some_2 sims idx Hidx) as [score ->]. simpl.
  destruct (float_pos score); [|apply IH].
  destruct (lookup_lt_is_Some_2 (LiteSpecsIndexer.documents (LiteSpecsIndexer.db self))
              idx ltac:(lia)) as [c ->].
  destruct (lookup_lt_is_Some_2 (LiteSpecsIndexer.metadata (LiteSpecsIndexer.db self))
              idx ltac:(lia)) as [m ->].
  simpl. apply IH.
Qed.

Lemma index_all_sets_indexed `{Markdown} `{Floats} `{!Tfidf} (md_files : list md_file)
    (self : LiteSpecsIndexer.t) :
  snd (LiteSpecsIndexer.index_all md_files self) = Py.Ok tt ->
  corpus_documents md_files <> [] ->
  let built := fst (LiteSpecsIndexer.index_all md_files self) in
  LiteSpecsIndexer.is_indexed (LiteSpecsIndexer.db built) = true
  /\ LiteSpecsIndexer.db_file built = Some (LiteSpecsIndexer.db built).
Proof.
  rewrite lite_index_all_eq. intros Hok Hdocs.
  destruct md_files as [|file rest]; [done|].
  revert Hok Hdocs.
  generalize (corpus_documents (file :: rest)) (corpus_metadata (file :: rest)).
  intros D M Hok Hdocs. destruct D as [|d ds]; [done|].
  cbv zeta in *.
  by destruct (fit_transform (d :: ds)) as [[v m]|e].
Qed.

(** X6: on the indexer left by an [index_all] that ended without an
    exception and found at least one chunk, [search] returns a list for
    every query and limit, provided the vectorizer gives one similarity
    per document and [argsort] gives positions of its argument. *)
Theorem search_after_index_all_returns `{Markdown} `{Floats} `{!Tfidf}
    (md_files : list md_file) (self : LiteSpecsIndexer.t)
    (query : string) (n_results : Z) :
  let built := fst (LiteSpecsIndexer.index_all md_files self) in
  let scores :=
    similarities (LiteSpecsIndexer.the_vectorizer (LiteSpecsIndexer.db built))
      (LiteSpecsIndexer.tfidf_matrix (LiteSpecsIndexer.db built)) query in
  snd (LiteSpecsIndexer.index_all md_files self) = Py.Ok tt ->
  corpus_documents md_files <> [] ->
  length scores = length (LiteSpecsIndexer.documents (LiteSpecsIndexer.db built)) ->
  Forall (fun idx => (idx < length scores)%nat) (argsort scores) ->
  exists results : list LiteSpecsIndexer.search_result,
    LiteSpecsIndexer.search built query n_results = (built, Py.Ok results).
Proof.
  intros built scores Hok Hdocs Hlen Hperm.
  assert (Hix : LiteSpecsIndexer.is_indexed (LiteSpecsIndexer.db built) = true)
    by (by apply (index_all_sets_indexed md_files self)).
  assert (Hmeta : length (LiteSpecsIndexer.documents (LiteSpecsIndexer.db built))
                  = length (LiteSpecsIndexer.metadata (LiteSpecsIndexer.db built))).
  { subst built. destruct (lite_index_all_chunks md_files self) as [-> ->].
    apply (Forall2_length _ _ _ (corpus_chunks_ok md_files)). }
  subst scores. clearbody built.
  unfold LiteSpecsIndexer.search, LiteSpecsIndexer.loaded. rewrite !Hix.
  cbn [negb].
  edestruct (results_loop_returns built) as [results Hr];
    [exact Hlen | by rewrite Hlen | | exists results; f_equal; exact Hr].
  by apply slice_to_Forall, Forall_rev.
Qed.

Lemma search_after_index_all_returns_witness :
  snd (@LiteSpecsIndexer.index_all Fixtures.no_headings Fixtures.centi
         Fixtures.word_overlap Fixtures.two_files (LiteSpecsIndexer.init None))
  = Py.Ok tt
  /\ exists results : list LiteSpecsIndexer.search_result,
       LiteSpecsIndexer.search Fixtures.lite_indexer "gamma" 3
       = (Fixtures.lite_indexer, Py.Ok results).
Proof.
  split; [reflexivity|].
  apply (@search_after_index_all_returns Fixtures.no_headings Fixtures.centi
           Fixtures.word_overlap Fixtures.two_files (LiteSpecsIndexer.init None)
           "gamma" 3).
  - reflexivity.
  - discriminate.
  - reflexivity.
  - repeat constructor.
Defined.

(** X7: when the indexer is not indexed and the database file does not
    make it so, [search] raises [ValueError] for every query and limit,
    and so does [get_context_for_generation] for every budget; the indexer
    is left as loading left it. *)
Theorem search_without_index_raises `{Floats} `{!Tfidf} (self : LiteSpecsIndexer.t)
    (query : string) (n_results max_tokens : Z) :
  LiteSpecsIndexer.is_indexed (LiteSpecsIndexer.db (LiteSpecsIndexer.loaded self))
  = false ->
  LiteSpecsIndexer.search self query n_results
  = (LiteSpecsIndexer.loaded self, Py.Raise Py.ValueError)
  /\ LiteSpecsIndexer.get_context_for_generation self query max_tokens
     = (LiteSpecsIndexer.loaded self, Py.Raise Py.ValueError).
Proof.
  intros Hno.
  assert (Hs : forall n, LiteSpecsIndexer.search self query n
                         = (LiteSpecsIndexer.loaded self, Py.Raise Py.ValueError)).
  { intros n. unfold LiteSpecsIndexer.search. by rewrite Hno. }
  split; [apply Hs|].
  unfold LiteSpecsIndexer.get_context_for_generation. by rewrite Hs.
Qed.

Lemma search_without_index_raises_witness :
  LiteSpecsIndexer.is_indexed
    (LiteSpecsIndexer.db
       (LiteSpecsIndexer.loaded (@LiteSpecsIndexer.init Fixtures.centi
                                   Fixtures.word_overlap None))) = false
  /\ snd (LiteSpecsIndexer.search
            (@LiteSpecsIndexer.init Fixtures.centi Fixtures.word_overlap None) "alpha" 5)
     = Py.Raise Py.ValueError.
Proof.
  split; [reflexivity|].
  exact (f_equal snd
           (proj1 (@search_without_index_raises Fixtures.centi Fixtures.word_overlap
                     (LiteSpecsIndexer.init None) "alpha" 5 4000 eq_refl))).
Defined.

(** X8: the database written by an [index_all] that ended without an
    exception and found at least one chunk is opened by the constructor of
    the query tool, whose indexer then holds the documents, the metadata,
    the vectorizer and the matrix of the indexer that wrote it. *)
Theorem index_then_open `{Markdown} `{Floats} `{!Tfidf} (md_files : list md_file)
    (self : LiteSpecsIndexer.t) :
  snd (LiteSpecsIndexer.index_all md_files self) = Py.Ok tt ->
  corpus_documents md_files <> [] ->
  let built := fst (LiteSpecsIndexer.index_all md_files self) in
  exists tool : LiteSpecsQuery.t,
    LiteSpecsQuery.init (LiteSpecsIndexer.db_file built) = Py.Ok tool
    /\ LiteSpecsIndexer.db (LiteSpecsQuery.indexer tool) = LiteSpecsIndexer.db built.
Proof.
  intros Hok Hdocs built.
  destruct (index_all_sets_indexed md_files self Hok Hdocs) as [Hix Hfile].
  fold built in Hix, Hfile. clearbody built.
  unfold LiteSpecsQuery.init, LiteSpecsIndexer.load. rewrite Hfile. simpl.
  rewrite Hix. by eexists.
Qed.

Lemma index_then_open_witness :
  snd (@LiteSpecsIndexer.index_all Fixtures.no_headings Fixtures.centi
         Fixtures.word_overlap Fixtures.two_files (LiteSpecsIndexer.init None))
  = Py.Ok tt
  /\ exists tool : LiteSpecsQuery.t,
       LiteSpecsQuery.init (LiteSpecsIndexer.db_file Fixtures.lite_indexer) = Py.Ok tool
       /\ LiteSpecsIndexer.db (LiteSpecsQuery.indexer tool)
          = LiteSpecsIndexer.db Fixtures.lite_indexer.
Proof.
  split; [reflexivity|].
  apply (@index_then_open Fixtures.no_headings Fixtures.centi Fixtures.word_overlap
           Fixtures.two_files (LiteSpecsIndexer.init None)).
  - reflexivity.
  - discriminate.
Defined.

(** X9: when the files of the corpus give no chunk at all, [index_all] on
    a new indexer ends without an exception and writes the database file,
    but the database is not marked indexed and the constructor of the
    query tool raises [ValueError] on it. *)
Theorem chunkless_corpus_is_refused `{Markdown} `{Floats} `{!Tfidf}
    (md_files : list md_file) :
  md_files <> [] ->
  corpus_documents md_files = [] ->
  let rebuilt := LiteSpecsIndexer.index_all md_files (LiteSpecsIndexer.init None) in
  snd rebuilt = Py.Ok tt
  /\ LiteSpecsIndexer.db_file (fst rebuilt) = Some (LiteSpecsIndexer.db (fst rebuilt))
  /\ LiteSpecsQuery.init (LiteSpecsIndexer.db_file (fst rebuilt))
     = Py.Raise Py.ValueError.
Proof.
  intros Hfiles Hnone rebuilt. subst rebuilt. rewrite lite_index_all_eq.
  destruct md_files as [|file rest]; [done|].
  rewrite Hnone. done.
Qed.

Lemma chunkless_corpus_is_refused_witness :
  [Fixtures.empty_file; Fixtures.unreadable_file] <> []
  /\ LiteSpecsQuery.init
       (LiteSpecsIndexer.db_file
          (fst (@LiteSpecsIndexer.index_all Fixtures.no_headings Fixtures.centi
                  Fixtures.word_overlap
                  [Fixtures.empty_file; Fixtures.unreadable_file]
                  (LiteSpecsIndexer.init None))))
     = Py.Raise Py.ValueError.
Proof.
  split; [discriminate|].
  exact (proj2 (proj2 (@chunkless_corpus_is_refused Fixtures.no_headings
                         Fixtures.centi Fixtures.word_overlap
                         [Fixtures.empty_file; Fixtures.unreadable_file]
                         ltac:(discriminate) eq_refl))).
Defined.

Lemma results_loop_raises `{Floats} `{!Tfidf} (self : LiteSpecsIndexer.t)
    (sims : list float) (top : list nat)
    (acc : list LiteSpecsIndexer.search_result) (e : Py.exn) :
  LiteSpecsIndexer.results_loop self sims top acc = Py.Raise e -> e = Py.IndexError.
Proof.
  revert acc. induction top as [|idx top IH]; intros acc; simpl; [done|].
  unfold Py.index.
  destruct (sims !! idx) as [score|]; simpl; [|by intros [= <-]].
  destruct (float_pos score); [|apply IH].
  destruct (LiteSpecsIndexer.documents _ !! idx) as [c|]; simpl; [|by intros [= <-]].
  destruct (LiteSpecsIndexer.metadata _ !! idx) as [m|]; simpl; [|by intros [= <-]].
  apply IH.
Qed.

(** X10: a query tool that its constructor has built never reloads: each
    [search] leaves it as it is and never raises the missing-index
    [ValueError]; with a vectorizer whose calls return, the only exception
    left is the [IndexError] of a position outside the documents. *)
Theorem opened_tool_stays_indexed `{Floats} `{!Tfidf}
    (db_file : option LiteSpecsIndexer.db_data) (tool : LiteSpecsQuery.t)
    (query : string) (n_results : Z) (file_filter : option string) :
  LiteSpecsQuery.init db_file = Py.Ok tool ->
  fst (LiteSpecsQuery.search tool query n_results file_filter) = tool
  /\ forall e : Py.exn,
       snd (LiteSpecsQuery.search tool query n_results file_filter) = Py.Raise e ->
       e = Py.IndexError.
Proof.
  unfold LiteSpecsQuery.init. destruct db_file as [d|]; [|done].
  destruct (LiteSpecsIndexer.is_indexed _) eqn:Hix; [|done].
  intros [= <-]. unfold LiteSpecsQuery.search, LiteSpecsIndexer.search,
    LiteSpecsIndexer.loaded. cbn [LiteSpecsQuery.indexer]. rewrite !Hix.
  cbn [negb fst snd]. split; [done|].
  intros e. destruct (LiteSpecsIndexer.results_loop _ _ _ _) as [rs|e'] eqn:Hr.
  - cbn [Py.bind]. destruct file_filter as [f|]; [destruct (Py.nonempty f)|]; done.
  - cbn [Py.bind]. intros [= <-]. by apply results_loop_raises in Hr.
Qed.

Lemma opened_tool_stays_indexed_witness :
  LiteSpecsQuery.init (LiteSpecsIndexer.db_file Fixtures.lite_indexer)
  = Py.Ok Fixtures.lite_query
  /\ fst (LiteSpecsQuery.search Fixtures.lite_query "alpha" 5 (Some "a/"))
     = Fixtures.lite_query.
Proof.
  split; [reflexivity|].
  exact (proj1 (@opened_tool_stays_indexed Fixtures.centi Fixtures.word_overlap
                  (LiteSpecsIndexer.db_file Fixtures.lite_indexer) Fixtures.lite_query
                  "alpha" 5 (Some "a/") eq_refl)).
Defined.

(** ** File summaries, file lists and statistics *)

Lemma sections_add_keys (title preview : string)
    (sections : list (string * list string)) :
  fst <$> LiteSpecsQuery.sections_add title preview sections
  = (fst <$> sections)
    ++ (if decide (title ∈ fst <$> sections) then [] else [title]).
Proof.
  induction sections as [|entry rest IH].
  - destruct (decide (title ∈ fst <$> [])) as [Hin|_]; [|done].
    by apply elem_of_nil in Hin.
  - cbn [LiteSpecsQuery.sections_add].
    destruct (String.eqb_spec (fst entry) title) as [Heq|Hne].
    + destruct (decide (title ∈ fst <$> entry :: rest)) as [_|Hn].
      * by rewrite app_nil_r.
      * exfalso. apply Hn. rewrite fmap_cons, Heq. left.
    + rewrite !fmap_cons, IH. cbn [app]. f_equal. f_equal.
      destruct (decide (title ∈ fst <$> rest)) as [Hin|Hn];
        destruct (decide (title ∈ fst entry :: (fst <$> rest))) as [Hin'|Hn'];
        try done.
      * exfalso. apply Hn'. by right.
      * exfalso. apply elem_of_cons in Hin' as [Heq|Hin']; [by symmetry in Heq|done].
Qed.

Lemma summary_loop_spec (filtered : list chunk_metadata)
    (sections : list (string * list string)) (total : Z) :
  let result := LiteSpecsQuery.summary_loop filtered sections total in
  snd result = total + Py.len filtered
  /\ (NoDup (fst <$> sections) -> NoDup (fst <$> fst result))
  /\ forall t : string,
       t ∈ fst <$> fst result
       <-> t ∈ fst <$> sections \/ exists meta, meta ∈ filtered /\ title (doc meta) = t.
Proof.
  revert sections total. induction filtered as [|meta rest IH];
    intros sections total; simpl.
  - split; [unfold Py.len; simpl; lia|]. split; [done|].
    intros t. split; [by left|]. intros [Hin|(meta & Hin & _)]; [done|].
    by apply elem_of_nil in Hin.
  - destruct (IH (LiteSpecsQuery.sections_add (title (doc meta)) (chunk_preview meta)
                    sections) (total + 1)) as (Htotal & Hnodup & Hkeys).
    split; [rewrite Htotal; unfold Py.len; simpl length; lia|]. split.
    + intros Hnd. apply Hnodup. rewrite sections_add_keys.
      case_decide; [by rewrite app_nil_r|].
      apply NoDup_app. split; [done|]. split; [|apply NoDup_singleton].
      intros x Hx Hx'. apply list_elem_of_singleton in Hx'. by subst.
    + intros t. rewrite Hkeys, sections_add_keys. split.
      * intros [Hin|(m & Hm & Ht)].
        -- apply elem_of_app in Hin as [Hin|Hin]; [by left|].
           case_decide; [by apply elem_of_nil in Hin|].
           apply list_elem_of_singleton in Hin. right. exists meta.
           split; [left|done].
        -- right. exists m. split; [by right|done].
      * intros [Hin|(m & Hm & Ht)].
        -- left. apply elem_of_app. by left.
        -- apply elem_of_cons in Hm as [->|Hm].
           ++ left. apply elem_of_app. case_decide; [left|right].
              ** by rewrite <- Ht.
              ** rewrite Ht. apply list_elem_of_singleton. done.
           ++ right. by exists m.
Qed.

(** X11: [get_file_summary] selects the metadata whose file path contains
    the given string.  When none does it returns the error; otherwise it
    returns the given string, the number of selected entries as
    [total_chunks], and as [sections] the titles of the selected entries,
    each title once. *)
Theorem file_summary_counts_matches `{Floats} `{!Tfidf} `{!Vocabulary}
    (self : LiteSpecsQuery.t) (path : string) :
  match LiteSpecsQuery.get_file_summary self path with
  | LiteSpecsQuery.SummaryError error =>
      matching_metadata self path = []
      /\ error = "No content found for file: " +:+ path
  | LiteSpecsQuery.Summary file_path total_chunks sections _ =>
      matching_metadata self path <> []
      /\ file_path = path
      /\ total_chunks = Py.len (matching_metadata self path)
      /\ NoDup sections
      /\ forall t : string,
           t ∈ sections
           <-> exists meta, meta ∈ matching_metadata self path /\ title (doc meta) = t
  end.
Proof.
  unfold LiteSpecsQuery.get_file_summary. fold (matching_metadata self path).
  destruct (matching_metadata self path) as [|meta rest] eqn:Hm; [done|].
  pose proof (summary_loop_spec (meta :: rest) [] 0) as (Htotal & Hnodup & Hkeys).
  destruct (LiteSpecsQuery.summary_loop (meta :: rest) [] 0) as [sections total].
  simpl in Htotal, Hnodup, Hkeys.
  split; [done|]. split; [done|]. split; [by rewrite Htotal|].
  split; [apply Hnodup; constructor|].
  intros t. rewrite Hkeys. split; [|by right].
  intros [Hin|Hin]; [by apply elem_of_nil in Hin|done].
Qed.



(** X13: [list_indexed_files] returns the file paths of the metadata in
    ascending order, each path once. *)
Theorem indexed_files_sorted_distinct `{Floats} `{!Tfidf} (self : LiteSpecsQuery.t) :
  StronglySorted String.le (LiteSpecsQuery.list_indexed_files self)
  /\ NoDup (LiteSpecsQuery.list_indexed_files self)
  /\ forall path : string,
       path ∈ LiteSpecsQuery.list_indexed_files self
       <-> exists meta,
             meta ∈ LiteSpecsIndexer.metadata
                      (LiteSpecsIndexer.db (LiteSpecsQuery.indexer self))
             /\ file_path (doc meta) = path.
Proof.
  unfold LiteSpecsQuery.list_indexed_files.
  split; [apply StronglySorted_merge_sort; apply _|]. split.
  - rewrite merge_sort_Permutation. apply NoDup_remove_dups.
  - intros path. rewrite merge_sort_Permutation, elem_of_remove_dups,
      list_elem_of_fmap. split.
    + intros (meta & -> & Hm). by exists meta.
    + intros (meta & Hm & <-). by exists meta.
Qed.

Lemma remove_dups_length {A} `{EqDecision A} (l : list A) :
  (length (remove_dups l) <= length l)%nat.
Proof.
  induction l as [|x l IH]; simpl; [done|]. case_decide; simpl; lia.
Qed.

(** X14: in the statistics of the indexer left by [index_all], the number
    of chunks is the number of documents, which is the number of metadata
    entries, and the number of indexed files is at most the number of
    chunks and at most the number of files given to [index_all]. *)
Theorem statistics_after_index_all `{Markdown} `{Floats} `{!Tfidf} `{!Vocabulary}
    (md_files : list md_file) (self : LiteSpecsIndexer.t) :
  let built := fst (LiteSpecsIndexer.index_all md_files self) in
  let stats := LiteSpecsIndexer.get_statistics built in
  LiteSpecsIndexer.total_chunks stats = Py.len (corpus_documents md_files)
  /\ LiteSpecsIndexer.total_chunks stats
     = Py.len (LiteSpecsIndexer.metadata (LiteSpecsIndexer.db built))
  /\ 0 <= LiteSpecsIndexer.indexed_files stats <= LiteSpecsIndexer.total_chunks stats
  /\ LiteSpecsIndexer.indexed_files stats <= Py.len md_files.
Proof.
  intros built stats. subst stats. unfold LiteSpecsIndexer.get_statistics. simpl.
  destruct (lite_index_all_chunks md_files self) as [Hd Hm].
  fold built in Hd, Hm. rewrite Hd, Hm.
  assert (Hlen : length (corpus_documents md_files) = length (corpus_metadata md_files))
    by apply (Forall2_length _ _ _ (corpus_chunks_ok md_files)).
  split; [done|]. split; [unfold Py.len; by rewrite Hlen|]. split.
  - unfold Py.len. rewrite Hlen.
    pose proof (remove_dups_length
                  ((fun meta => file_path (doc meta)) <$> corpus_metadata md_files)) as Hr.
    rewrite length_fmap in Hr. lia.
  - unfold Py.len. apply inj_le.
    rewrite <- (length_fmap relative_path md_files).
    apply submseteq_length, NoDup_submseteq; [apply NoDup_remove_dups|].
    intros path Hp. apply elem_of_remove_dups, list_elem_of_fmap in Hp as (meta & -> & Hm').
    pose proof (corpus_metadata_paths md_files) as Hall.
    rewrite Forall_forall in Hall. by apply Hall.
Qed.

(** X15: the number of indexed files in the statistics of the query tool
    is the length of the list that [list_indexed_files] returns. *)
Theorem statistics_count_listed_files `{Floats} `{!Tfidf} `{!Vocabulary}
    (self : LiteSpecsQuery.t) :
  LiteSpecsIndexer.indexed_files (LiteSpecsQuery.get_statistics self)
  = Py.len (LiteSpecsQuery.list_indexed_files self).
Proof.
  unfold LiteSpecsQuery.get_statistics, LiteSpecsIndexer.get_statistics,
    LiteSpecsQuery.list_indexed_files, Py.len. simpl.
  by rewrite merge_sort_Permutation.
Qed.

(** X16: the empty string is contained in every path, so the summary for
    it never is the error on an index that holds a chunk, and it counts
    every chunk of the index. *)
Theorem file_summary_of_empty_path `{Floats} `{!Tfidf} `{!Vocabulary}
    (self : LiteSpecsQuery.t) :
  LiteSpecsIndexer.metadata (LiteSpecsIndexer.db (LiteSpecsQuery.indexer self)) <> [] ->
  exists (sections : list string) (content_preview : string),
    LiteSpecsQuery.get_file_summary self EmptyString
    = LiteSpecsQuery.Summary EmptyString
        (Py.len (LiteSpecsIndexer.metadata
                   (LiteSpecsIndexer.db (LiteSpecsQuery.indexer self))))
        sections content_preview.
Proof.
  intros Hne. unfold LiteSpecsQuery.get_file_summary.
  rewrite (filter_all_true _ (LiteSpecsIndexer.metadata _))
    by (apply Forall_forall; intros r _; apply contains_empty).
  destruct (LiteSpecsIndexer.metadata _) as [|meta rest] eqn:Hm; [done|].
  pose proof (summary_loop_spec (meta :: rest) [] 0) as (Htotal & _).
  destruct (LiteSpecsQuery.summary_loop (meta :: rest) [] 0) as [sections total].
  simpl in Htotal. rewrite Htotal. by do 2 eexists.
Qed.

Lemma file_summary_of_empty_path_witness :
  LiteSpecsIndexer.metadata
    (LiteSpecsIndexer.db (LiteSpecsQuery.indexer Fixtures.lite_query)) <> []
  /\ exists (sections : list string) (content_preview : string),
       @LiteSpecsQuery.get_file_summary Fixtures.centi Fixtures.word_overlap
         Fixtures.lite_query EmptyString
       = LiteSpecsQuery.Summary EmptyString 2 sections content_preview.
Proof.
  split; [discriminate|].
  apply (@file_summary_of_empty_path Fixtures.centi Fixtures.word_overlap
           Fixtures.document_vocabulary Fixtures.lite_query).
  discriminate.
Defined.

(** ** Chunk sizes at the edges *)

Lemma split_from_nonempty (sep : string) (skip : nat) (cur s : string) :
  Py.split_from sep skip cur s <> [].
Proof.
  revert skip cur. induction s as [|c s IH]; intros skip cur.
  - by destruct skip.
  - destruct skip as [|k]; cbn [Py.split_from]; [|apply IH].
    destruct (String.prefix sep (String c s)); [discriminate|apply IH].
Qed.

Lemma lite_chunk_loop_negative (chunk_size : Z) (paragraphs : list string) :
  chunk_size < 0 ->
  LiteSpecsIndexer.chunk_loop chunk_size paragraphs [] EmptyString
  = Py.Ok ([], EmptyString).
Proof.
  intros Hneg. induction paragraphs as [|paragraph rest IH]; simpl; [done|].
  destruct (Z.leb_spec (Py.str_len EmptyString + Py.str_len paragraph + 2) chunk_size)
    as [Hle|_].
  { unfold Py.str_len in Hle. simpl in Hle. lia. }
  assert (Hstep : chunk_size / 5 < 0) by (apply Z.div_lt_upper_bound; lia).
  unfold Py.range, Py.range_len.
  destruct (Z.eqb_spec (chunk_size / 5) 0) as [?|_]; [lia|].
  destruct (Z.ltb_spec 0 (chunk_size / 5)) as [?|_]; [lia|].
  destruct (Z.ltb_spec (Py.len (Py.split_ws paragraph)) 0) as [Hlt|_].
  { unfold Py.len in Hlt. lia. }
  simpl. exact IH.
Qed.

(** X17: with a chunk size of 0 or 1 the paragraph chunker raises
    [ValueError] for every text, the empty one included, because the word
    step [chunk_size // 5] is 0; with a negative chunk size it returns no
    chunk at all for every text. *)
Theorem lite_chunk_size_edges (content : string) (chunk_size overlap : Z) :
  (0 <= chunk_size < 2 ->
   LiteSpecsIndexer.chunk_content content chunk_size overlap
   = Py.Raise Py.ValueError)
  /\ (chunk_size < 0 ->
      LiteSpecsIndexer.chunk_content content chunk_size overlap = Py.Ok []).
Proof.
  unfold LiteSpecsIndexer.chunk_content. split.
  - intros Hsmall.
    pose proof (split_from_nonempty (Py.LF +:+ Py.LF) 0 EmptyString content) as Hne.
    unfold Py.split.
    destruct (Py.split_from _ _ _ _) as [|paragraph rest]; [done|]. simpl.
    destruct (Z.leb_spec (Py.str_len EmptyString + Py.str_len paragraph + 2) chunk_size)
      as [Hle|_].
    { unfold Py.str_len in Hle. simpl in Hle. lia. }
    rewrite (Z.div_small chunk_size 5) by lia. reflexivity.
  - intros Hneg. by rewrite lite_chunk_loop_negative.
Qed.

Lemma lite_chunk_size_edges_witness :
  0 <= 1 < 2 /\ -5 < 0
  /\ LiteSpecsIndexer.chunk_content "some text" 1 200 = Py.Raise Py.ValueError
  /\ LiteSpecsIndexer.chunk_content "some text" (-5) 200 = Py.Ok [].
Proof.
  split; [lia|]. split; [lia|].
  destruct (lite_chunk_size_edges "some text" 1 200) as [Hsmall _].
  destruct (lite_chunk_size_edges "some text" (-5) 200) as [_ Hneg].
  split; [apply Hsmall; lia | apply Hneg; lia].
Defined.

Lemma lstrip_length (s : string) : Py.str_len (Py.lstrip s) <= Py.str_len s.
Proof.
  unfold Py.str_len. induction s as [|c s IH]; simpl; [lia|].
  destruct (Py.isspace c); simpl; lia.
Qed.

Lemma rstrip_length (s : string) : Py.str_len (Py.rstrip s) <= Py.str_len s.
Proof.
  unfold Py.str_len. induction s as [|c s IH]; simpl; [lia|].
  destruct (Py.rstrip s) as [|c' r]; [destruct (Py.isspace c)|]; simpl in *; lia.
Qed.

Lemma strip_length (s : string) : Py.str_len (Py.strip s) <= Py.str_len s.
Proof.
  unfold Py.strip. etransitivity; [apply lstrip_length | apply rstrip_length].
Qed.

(** The length of the chunk list once the running chunk is flushed. *)
Lemma nonempty_len (s : string) : Py.nonempty s = false -> Py.str_len s = 0.
Proof. by destruct s. Qed.

Lemma lite_chunk_loop_fits (chunk_size : Z) (paragraphs chunks : list string)
    (current_chunk : string) :
  Forall (fun paragraph => Py.str_len paragraph + 2 <= chunk_size) paragraphs ->
  Forall (fun chunk => Py.str_len chunk <= chunk_size) chunks ->
  Py.str_len current_chunk <= chunk_size ->
  exists (chunks' : list string) (current' : string),
    LiteSpecsIndexer.chunk_loop chunk_size paragraphs chunks current_chunk
    = Py.Ok (chunks', current')
    /\ Forall (fun chunk => Py.str_len chunk <= chunk_size) chunks'
    /\ Py.str_len current' <= chunk_size
    /\ (length chunks' + (if Py.nonempty current' then 1 else 0)
        <= length chunks + (if Py.nonempty current_chunk then 1 else 0)
           + length paragraphs)%nat.
Proof.
  intros Hfit. revert chunks current_chunk.
  induction Hfit as [|paragraph rest Hp _ IH]; intros chunks current Hchunks Hcur.
  - exists chunks, current. simpl. repeat split; try done. lia.
  - cbn [LiteSpecsIndexer.chunk_loop].
    destruct (Z.leb_spec (Py.str_len current + Py.str_len paragraph + 2) chunk_size)
      as [Hle|Hgt].
    + destruct (Py.nonempty current) eqn:Hne.
      * destruct (IH chunks (current +:+ Py.LF +:+ Py.LF +:+ paragraph) Hchunks)
          as (chunks' & current' & Heq & Hall & Hc & Hcount).
        { rewrite !str_len_app. change (Py.str_len Py.LF) with 1. lia. }
        exists chunks', current'. repeat split; try done.
        destruct (Py.nonempty (current +:+ _)); simpl length in *; lia.
      * destruct (IH chunks paragraph Hchunks ltac:(lia))
          as (chunks' & current' & Heq & Hall & Hc & Hcount).
        exists chunks', current'. repeat split; try done.
        destruct (Py.nonempty paragraph); simpl length in *; lia.
    + destruct (Py.nonempty current) eqn:Hne.
      * destruct (IH (chunks ++ [Py.strip current]) paragraph)
          as (chunks' & current' & Heq & Hall & Hc & Hcount).
        { apply Forall_app. split; [done|]. constructor; [|constructor].
          pose proof (strip_length current). lia. }
        { lia. }
        exists chunks', current'. repeat split; try done.
        rewrite length_app in Hcount.
        destruct (Py.nonempty paragraph); simpl length in *; lia.
      * apply nonempty_len in Hne. lia.
Qed.

(** X18: when every paragraph of the text has at most [chunk_size - 2]
    characters, the paragraph chunker returns without an exception, every
    chunk has at most [chunk_size] characters, and there are no more
    chunks than paragraphs. *)
Theorem lite_chunks_bounded_when_paragraphs_fit (content : string)
    (chunk_size overlap : Z) :
  Forall (fun paragraph => Py.str_len paragraph + 2 <= chunk_size)
    (Py.split content (Py.LF +:+ Py.LF)) ->
  exists chunks : list string,
    LiteSpecsIndexer.chunk_content content chunk_size overlap = Py.Ok chunks
    /\ Forall (fun chunk => Py.str_len chunk <= chunk_size) chunks
    /\ (length chunks <= length (Py.split content (Py.LF +:+ Py.LF)))%nat.
Proof.
  intros Hfit. unfold LiteSpecsIndexer.chunk_content.
  assert (Hsize : 2 <= chunk_size).
  { pose proof (split_from_nonempty (Py.LF +:+ Py.LF) 0 EmptyString content) as Hne.
    unfold Py.split in Hfit. destruct Hfit as [|p ps Hp _]; [done|].
    unfold Py.str_len in Hp. lia. }
  destruct (lite_chunk_loop_fits chunk_size (Py.split content (Py.LF +:+ Py.LF))
              [] EmptyString Hfit)
    as (chunks & current & Heq & Hall & Hc & Hcount); [constructor| |].
  { unfold Py.str_len. simpl. lia. }
  rewrite Heq. cbn [Py.bind]. eexists. split; [reflexivity|].
  simpl in Hcount. destruct (Py.nonempty current); split; try done.
  - apply Forall_app. split; [done|]. constructor; [|constructor].
    pose proof (strip_length current). lia.
  - rewrite length_app. simpl. lia.
  - lia.
Qed.

Lemma lite_chunks_bounded_when_paragraphs_fit_witness :
  Forall (fun paragraph => Py.str_len paragraph + 2 <= 10)
    (Py.split ("one two" +:+ Py.LF +:+ Py.LF +:+ "three" +:+ Py.LF +:+ Py.LF +:+ "four")
       (Py.LF +:+ Py.LF))
  /\ exists chunks : list string,
       LiteSpecsIndexer.chunk_content
         ("one two" +:+ Py.LF +:+ Py.LF +:+ "three" +:+ Py.LF +:+ Py.LF +:+ "four") 10 200
       = Py.Ok chunks
       /\ Forall (fun chunk => Py.str_len chunk <= 10) chunks.
Proof.
  assert (Hfit : Forall (fun paragraph => Py.str_len paragraph + 2 <= 10)
                   (Py.split ("one two" +:+ Py.LF +:+ Py.LF +:+ "three"
                              +:+ Py.LF +:+ Py.LF +:+ "four") (Py.LF +:+ Py.LF))).
  { change (Forall (fun paragraph => Py.str_len paragraph + 2 <= 10)
              ["one two"; "three"; "four"]).
    repeat constructor; unfold Py.str_len; simpl; lia. }
  split; [exact Hfit|].
  destruct (lite_chunks_bounded_when_paragraphs_fit _ 10 200 Hfit)
    as (chunks & Heq & Hall & _).
  exists chunks. split; [exact Heq | exact Hall].
Defined.

(** ** Token windows at the edges *)

(** X19: when the overlap equals the chunk size the token chunker raises
    [ValueError] for every text, because the stride of the windows is 0;
    when the overlap is larger than the chunk size it returns no chunk at
    all, whatever the text. *)
Theorem token_chunk_overlap_edges `{Encoding} (content : string)
    (chunk_size overlap : Z) :
  SpecsIndexer.chunk_content content chunk_size chunk_size = Py.Raise Py.ValueError
  /\ (chunk_size < overlap ->
      SpecsIndexer.chunk_content content chunk_size overlap = Py.Ok []).
Proof.
  unfold SpecsIndexer.chunk_content, Py.range. split.
  - by rewrite Z.sub_diag.
  - intros Hov. destruct (Z.eqb_spec (chunk_size - overlap) 0) as [?|_]; [lia|].
    unfold Py.range_len.
    destruct (Z.ltb_spec 0 (chunk_size - overlap)) as [?|_]; [lia|].
    destruct (Z.ltb_spec (Py.len (encode content)) 0) as [Hlt|_]; [|done].
    unfold Py.len in Hlt. lia.
Qed.

Lemma token_chunk_overlap_edges_witness :
  4 < 6
  /\ @SpecsIndexer.chunk_content Fixtures.char_encoding "abcdefgh" 4 6 = Py.Ok [].
Proof.
  split; [lia|].
  apply (proj2 (@token_chunk_overlap_edges Fixtures.char_encoding "abcdefgh" 4 6)).
  lia.
Defined.

(** X20: for [0 <= overlap < chunk_size] the token chunker returns
    [ceil(n / (chunk_size - overlap))] chunks for a text of [n] tokens; in
    particular a text without tokens gives no chunk. *)
Theorem token_chunk_count `{Encoding} (content : string) (chunk_size overlap : Z) :
  0 <= overlap < chunk_size ->
  exists chunks : list string,
    SpecsIndexer.chunk_content content chunk_size overlap = Py.Ok chunks
    /\ Py.len chunks
       = (Py.len (encode content) + (chunk_size - overlap) - 1)
         / (chunk_size - overlap)
    /\ (encode content = [] -> chunks = []).
Proof.
  intros Hov. eexists. split.
  { rewrite chunk_content_decodes, chunk_windows_eq by done. reflexivity. }
  assert (Hcount : Z.of_nat (window_count (encode content) chunk_size overlap)
                   = (Py.len (encode content) + (chunk_size - overlap) - 1)
                     / (chunk_size - overlap)).
  { unfold window_count, Py.range_len.
    destruct (Z.ltb_spec 0 (chunk_size - overlap)) as [Hstep|?]; [|lia].
    destruct (Z.ltb_spec 0 (Py.len (encode content))) as [Hn|Hn].
    - replace (Py.len (encode content) + (chunk_size - overlap) - 1)
        with (Py.len (encode content) - 0 - 1 + 1 * (chunk_size - overlap)) by lia.
      rewrite Z.div_add by lia.
      rewrite Z2Nat.id; [done|].
      assert (0 <= (Py.len (encode content) - 0 - 1) / (chunk_size - overlap))
        by (apply Z.div_pos; lia).
      lia.
    - assert (Hz : Py.len (encode content) = 0) by (unfold Py.len in *; lia).
      rewrite Hz. rewrite Z.div_small by lia. done. }
  split.
  - unfold Py.len at 1. by rewrite !length_fmap, length_seq.
  - intros Hnil. rewrite Hnil in *. unfold Py.len in Hcount. simpl in Hcount.
    rewrite Z.div_small in Hcount by lia.
    destruct (window_count [] chunk_size overlap); [done|exfalso; lia].
Qed.

Lemma token_chunk_count_witness :
  0 <= 2 < 5
  /\ exists chunks : list string,
       @SpecsIndexer.chunk_content Fixtures.char_encoding "abcdefg" 5 2 = Py.Ok chunks
       /\ Py.len chunks = 3.
Proof.
  split; [lia|].
  destruct (@token_chunk_count Fixtures.char_encoding "abcdefg" 5 2 ltac:(lia))
    as (chunks & Heq & Hlen & _).
  exists chunks. split; [exact Heq|]. rewrite Hlen. reflexivity.
Defined.

(** ** The size of the context *)

Lemma joined_tail_length (blocks : list string) :
  Py.str_len (joined_tail Py.LF blocks)
  = total_size Py.str_len blocks + Py.len blocks.
Proof.
  unfold Py.len. induction blocks as [|b rest IH]; simpl; [done|].
  rewrite !str_len_app, IH. change (Py.str_len Py.LF) with 1. lia.
Qed.

(** X21: the context that the TF-IDF indexer returns has the 88
    characters of the header, the characters of the [k] included blocks
    and one line feed per block, for some [k] of at most 10: the line
    feeds are not counted against the budget, so for a budget of at least
    88 the context has at most [max_tokens + 10] characters. *)
Theorem lite_context_length `{Floats} `{!Tfidf} (self : LiteSpecsIndexer.t)
    (query : string) (max_tokens : Z)
    (results : list LiteSpecsIndexer.search_result) :
  snd (LiteSpecsIndexer.search self query 10) = Py.Ok results ->
  exists (context : string) (k : nat),
    snd (LiteSpecsIndexer.get_context_for_generation self query max_tokens)
    = Py.Ok context
    /\ (k <= 10)%nat
    /\ Py.str_len context
       = 88 + total_size Py.str_len (LiteSpecsIndexer.result_text <$> take k results)
         + Z.of_nat k
    /\ (88 <= max_tokens -> Py.str_len context <= max_tokens + 10).
Proof.
  intros Hs.
  set (blocks := LiteSpecsIndexer.result_text <$> results).
  set (k := admitted Py.str_len max_tokens (Py.str_len header_text) blocks).
  assert (Hk : (k <= length blocks)%nat) by apply admitted_le.
  assert (Hten : (length blocks <= 10)%nat).
  { subst blocks. rewrite length_fmap.
    pose proof (lite_search_length self query 10 results ltac:(lia) Hs) as Hl.
    unfold Py.len in Hl. lia. }
  assert (Hlen : Py.str_len (Py.join Py.LF (LiteSpecsIndexer.context_header
                                              ++ take k blocks))
                 = 88 + total_size Py.str_len (take k blocks) + Z.of_nat k).
  { change LiteSpecsIndexer.context_header
      with ["CONTEXT FROM BOOKLITE SPECIFICATIONS:"; Py.repeat_char "=" 50].
    rewrite join_app, str_len_app, joined_tail_length.
    change (Py.str_len (Py.join Py.LF [_; _])) with 88.
    unfold Py.len. rewrite length_take. lia. }
  exists (Py.join Py.LF (LiteSpecsIndexer.context_header ++ take k blocks)), k.
  split; [by rewrite lite_context_eq, Hs|]. split; [lia|].
  split; [by rewrite fmap_take|].
  intros Hbudget. rewrite Hlen.
  destruct (decide (k = 0%nat)) as [Hz|Hnz].
  - rewrite Hz. simpl. lia.
  - pose proof (admitted_within Py.str_len max_tokens (Py.str_len header_text)
                  blocks k ltac:(fold k; lia)) as Hw.
    change (Py.str_len header_text) with 88 in Hw. lia.
Qed.

Lemma lite_context_length_witness :
  exists (results : list LiteSpecsIndexer.search_result) (context : string),
    snd (LiteSpecsIndexer.search Fixtures.lite_indexer "alpha" 10) = Py.Ok results
    /\ snd (LiteSpecsIndexer.get_context_for_generation Fixtures.lite_indexer
              "alpha" 200)
       = Py.Ok context
    /\ Py.str_len context <= 200 + 10.
Proof.
  eexists.
  destruct (@lite_context_length Fixtures.centi Fixtures.word_overlap
              Fixtures.lite_indexer "alpha" 200 _ eq_refl)
    as (context & k & Hc & _ & _ & Hbound).
  exists context. split; [reflexivity|]. split; [exact Hc|].
  apply Hbound. lia.
Defined.

(** ** Scores of the vector store *)

Lemma result_at_scores `{Floats} `{!VectorStore} (hits : query_hits) (i : nat)
    (r : SpecsQuery.search_result) :
  SpecsQuery.result_at hits i = Py.Ok r ->
  SpecsQuery.relevance_score r = one_minus <$> SpecsQuery.distance r
  /\ (SpecsQuery.distance r = None <-> hit_distances hits = None).
Proof.
  unfold SpecsQuery.result_at, Py.index.
  destruct (hit_ids hits !! i) as [id|]; simpl; [|done].
  destruct (hit_documents hits !! i) as [d|]; simpl; [|done].
  destruct (hit_metadatas hits !! i) as [m|]; simpl; [|done].
  destruct (hit_distances hits) as [ds|].
  - destruct (ds !! i) as [x|]; simpl; [|done]. intros [= <-]. simpl. done.
  - intros [= <-]. simpl. done.
Qed.

Lemma Forall2_Forall_result {A B} (P : A -> B -> Prop) (Q : B -> Prop)
    (l : list A) (k : list B) :
  (forall x y, P x y -> Q y) -> Forall2 P l k -> Forall Q k.
Proof. intros HPQ. induction 1; constructor; eauto. Qed.

(** X22: every result of [SpecsQuery.search] has the relevance score
    [1 - distance], and either all results carry a distance or none does
    (then the relevance score is missing too). *)
Theorem search_relevance_from_distance `{Floats} `{!VectorStore} (self : collection)
    (query : string) (n_results : Z) (file_filter : option string)
    (results : list SpecsQuery.search_result) :
  SpecsQuery.search self query n_results file_filter = Py.Ok results ->
  Forall (fun r => SpecsQuery.relevance_score r = one_minus <$> SpecsQuery.distance r)
    results
  /\ (Forall (fun r => SpecsQuery.distance r = None) results
      \/ Forall (fun r => is_Some (SpecsQuery.distance r)) results).
Proof.
  unfold SpecsQuery.search.
  destruct (collection_query _ _ _ _) as [hits|e]; simpl; [|done].
  intros Hm. apply mapM_result_Forall2 in Hm. split.
  - eapply Forall2_Forall_result; [|exact Hm].
    intros i r Hr. by apply (result_at_scores hits i r).
  - destruct (hit_distances hits) as [ds|] eqn:Hd; [right|left].
    + eapply Forall2_Forall_result; [|exact Hm].
      intros i r Hr. apply (result_at_scores hits i r) in Hr as [_ Hnone].
      destruct (SpecsQuery.distance r); [done|].
      rewrite Hd in Hnone. discriminate (proj1 Hnone eq_refl).
    + eapply Forall2_Forall_result; [|exact Hm].
      intros i r Hr. apply (result_at_scores hits i r) in Hr as [_ Hnone].
      by apply Hnone.
Qed.

Lemma search_relevance_from_distance_witness :
  exists results : list SpecsQuery.search_result,
    SpecsQuery.search Fixtures.two_entries "alpha" 2 None = Py.Ok results
    /\ length results = 2%nat
    /\ Forall (fun r => SpecsQuery.relevance_score r
                        = @one_minus Fixtures.centi <$> SpecsQuery.distance r)
         results.
Proof.
  eexists. split; [reflexivity|]. split; [reflexivity|].
  exact (proj1 (@search_relevance_from_distance Fixtures.centi Fixtures.list_store
                  Fixtures.two_entries "alpha" 2 None _ eq_refl)).
Defined.

(** X23: when the first result of the search has no relevance score, as
    when the reply of the collection carries no distances,
    [get_context_for_generation] raises [TypeError] whatever the budget:
    the block is formatted before the budget is looked at. *)
Theorem context_without_distances_raises `{Encoding} `{Floats} `{!VectorStore}
    (self : collection) (query : string) (max_tokens : Z)
    (r : SpecsQuery.search_result) (rest : list SpecsQuery.search_result) :
  SpecsQuery.search self query 10 None = Py.Ok (r :: rest) ->
  SpecsQuery.relevance_score r = None ->
  SpecsQuery.get_context_for_generation self query max_tokens = Py.Raise Py.TypeError.
Proof.
  intros Hs Hnone. unfold SpecsQuery.get_context_for_generation.
  rewrite Hs. cbn [Py.bind SpecsQuery.context_loop].
  unfold SpecsQuery.result_text. by rewrite Hnone.
Qed.

Lemma context_without_distances_raises_witness :
  exists (r : SpecsQuery.search_result) (rest : list SpecsQuery.search_result),
    @SpecsQuery.search Fixtures.centi Fixtures.bare_store Fixtures.bare_entries
      "alpha" 10 None = Py.Ok (r :: rest)
    /\ SpecsQuery.relevance_score r = None
    /\ @SpecsQuery.get_context_for_generation Fixtures.char_encoding Fixtures.centi
         Fixtures.bare_store Fixtures.bare_entries "alpha" 0
       = Py.Raise Py.TypeError.
Proof.
  do 2 eexists. split; [reflexivity|]. split; [reflexivity|].
  exact (@context_without_distances_raises Fixtures.char_encoding Fixtures.centi
           Fixtures.bare_store Fixtures.bare_entries "alpha" 0 _ _ eq_refl eq_refl).
Defined.

Lemma mapM_result_fmap {A B C} (f : A -> Py.result B) (g : A -> Py.result C)
    (h : B -> C) (l : list A) :
  (forall x, g x = match f x with Py.Ok y => Py.Ok (h y) | Py.Raise e => Py.Raise e end) ->
  mapM (M:=Py.result) g l
  = match mapM (M:=Py.result) f l with
    | Py.Ok ys => Py.Ok (h <$> (ys : list B))
    | Py.Raise e => Py.Raise e
    end.
Proof.
  intros Hg. induction l as [|x l IH]; simpl; [done|].
  unfold mbind, result_bind. rewrite Hg.
  destruct (f x) as [y|e]; simpl; [|done].
  unfold mbind, result_bind in IH. rewrite IH.
  by destruct (mapM f l).
Qed.

(** X24: the [search] of the indexer returns what the [search] of the
    query tool returns without a file filter, less the relevance scores:
    the same results in the same order, or the same exception. *)
Theorem indexer_search_agrees_with_query_search `{Floats} `{!VectorStore}
    (self : collection) (query : string) (n_results : Z) :
  SpecsIndexer.search self query n_results
  = match SpecsQuery.search self query n_results None with
    | Py.Ok results => Py.Ok (without_relevance <$> results)
    | Py.Raise e => Py.Raise e
    end.
Proof.
  unfold SpecsIndexer.search, SpecsQuery.search.
  destruct (collection_query _ _ _ _) as [hits|e]; simpl; [|done].
  apply mapM_result_fmap. intros i.
  unfold SpecsIndexer.result_at, SpecsQuery.result_at.
  destruct (Py.index (hit_ids hits) i); simpl; [|done].
  destruct (Py.index (hit_documents hits) i); simpl; [|done].
  destruct (Py.index (hit_metadatas hits) i); simpl; [|done].
  destruct (hit_distances hits) as [ds|]; [|done].
  by destruct (Py.index ds i).
Qed.

(** ** Files that cannot be read *)

Lemma specs_index_all_fold `{Encoding} `{Markdown} `{Floats} `{!VectorStore}
    (md_files : list md_file) (self : collection) :
  SpecsIndexer.index_all md_files self
  = foldl (fun self file =>
             match SpecsIndexer.index_file file self with
             | Py.Ok self' => self'
             | Py.Raise _ => self
             end) empty_collection md_files.
Proof. unfold SpecsIndexer.index_all. by destruct md_files. Qed.

Lemma specs_index_file_unreadable `{Encoding} `{Markdown} `{Floats} `{!VectorStore}
    (file : md_file) (self : collection) :
  text file = None ->
  SpecsIndexer.index_file file self = Py.Raise Py.OSError.
Proof.
  intros Hnone.
  unfold SpecsIndexer.index_file, MarkdownParser.extract_markdown_content.
  by rewrite Hnone.
Qed.

Lemma file_chunks_unreadable `{Markdown} (file : md_file) :
  text file = None -> file_chunks file = ([], []).
Proof.
  intros Hnone. unfold file_chunks, MarkdownParser.extract_markdown_content.
  by rewrite Hnone.
Qed.

(** X25: a file that cannot be read is skipped and changes nothing: the
    vector-store rebuild gives the same collection with and without it,
    and so does the TF-IDF rebuild, state and outcome, as long as another
    file is left. *)
Theorem unreadable_file_is_skipped `{Encoding} `{Markdown} `{Floats} `{!Tfidf}
    `{!VectorStore} (file : md_file) (before after : list md_file) :
  text file = None ->
  (forall self : collection,
      SpecsIndexer.index_all (before ++ file :: after) self
      = SpecsIndexer.index_all (before ++ after) self)
  /\ (before ++ after <> [] ->
      forall self : LiteSpecsIndexer.t,
        LiteSpecsIndexer.index_all (before ++ file :: after) self
        = LiteSpecsIndexer.index_all (before ++ after) self).
Proof.
  intros Hnone. split.
  - intros self. rewrite !specs_index_all_fold, !foldl_app. cbn [foldl].
    by rewrite (specs_index_file_unreadable file _ Hnone).
  - intros Hleft self. rewrite !lite_index_all_eq.
    assert (Hd : corpus_documents (before ++ file :: after)
                 = corpus_documents (before ++ after)).
    { unfold corpus_documents. rewrite !fmap_app, !concat_app. simpl.
      by rewrite file_chunks_unreadable. }
    assert (Hm : corpus_metadata (before ++ file :: after)
                 = corpus_metadata (before ++ after)).
    { unfold corpus_metadata. rewrite !fmap_app, !concat_app. simpl.
      by rewrite file_chunks_unreadable. }
    destruct (before ++ file :: after) as [|f1 l1] eqn:Hwith;
      [by destruct before|].
    destruct (before ++ after) as [|f2 l2] eqn:Hwithout; [done|].
    by rewrite Hd, Hm.
Qed.

Lemma unreadable_file_is_skipped_witness :
  text Fixtures.unreadable_file = None
  /\ @LiteSpecsIndexer.index_all Fixtures.no_headings Fixtures.centi
       Fixtures.word_overlap
       ([Fixtures.empty_file] ++ Fixtures.unreadable_file :: Fixtures.two_files)
       (LiteSpecsIndexer.init None)
     = @LiteSpecsIndexer.index_all Fixtures.no_headings Fixtures.centi
         Fixtures.word_overlap ([Fixtures.empty_file] ++ Fixtures.two_files)
         (LiteSpecsIndexer.init None).
Proof.
  split; [reflexivity|].
  apply (proj2 (@unreadable_file_is_skipped Fixtures.char_encoding
                  Fixtures.no_headings Fixtures.centi Fixtures.word_overlap
                  Fixtures.list_store Fixtures.unreadable_file
                  [Fixtures.empty_file] Fixtures.two_files eq_refl)).
  discriminate.
Defined.

(** ** Paragraphs and words of the paragraph chunker *)

Lemma split_without_separator (sep cur s : string) :
  Py.contains sep s = false -> Py.split_from sep 0 cur s = [cur +:+ s].
Proof.
  revert cur. induction s as [|c s IH]; intros cur Hno.
  - simpl. by rewrite str_app_nil_r.
  - cbn [Py.contains] in Hno. apply orb_false_iff in Hno as [Hpre Hrest].
    cbn [Py.split_from]. rewrite Hpre, (IH _ Hrest).
    by rewrite str_app_assoc.
Qed.

(** X26: a text without a blank line that fits the chunk size with two
    characters to spare is one chunk, the text without its leading and
    trailing whitespace; the empty text gives no chunk. *)
Theorem lite_single_paragraph (content : string) (chunk_size overlap : Z) :
  Py.contains (Py.LF +:+ Py.LF) content = false ->
  Py.str_len content + 2 <= chunk_size ->
  LiteSpecsIndexer.chunk_content content chunk_size overlap
  = Py.Ok (if Py.nonempty content then [Py.strip content] else []).
Proof.
  intros Hno Hfit. unfold LiteSpecsIndexer.chunk_content, Py.split.
  rewrite (split_without_separator _ _ _ Hno), str_app_nil_l.
  cbn [LiteSpecsIndexer.chunk_loop].
  destruct (Z.leb_spec (Py.str_len EmptyString + Py.str_len content + 2) chunk_size)
    as [_|Hgt]; [|unfold Py.str_len in *; simpl in *; lia].
  cbn [Py.nonempty Py.bind]. by destruct (Py.nonempty content).
Qed.

Lemma lite_single_paragraph_witness :
  Py.contains (Py.LF +:+ Py.LF) " one line " = false
  /\ Py.str_len " one line " + 2 <= 1000
  /\ LiteSpecsIndexer.chunk_content " one line " 1000 200 = Py.Ok ["one line"].
Proof.
  split; [reflexivity|]. split; [unfold Py.str_len; simpl; lia|].
  apply (lite_single_paragraph " one line " 1000 200); [reflexivity|].
  unfold Py.str_len. simpl. lia.
Defined.

Lemma prefix_split (sep s : string) :
  String.prefix sep s = true -> exists rest, s = sep +:+ rest.
Proof.
  revert s. induction sep as [|a sep IH]; intros s Hpre.
  - by exists s.
  - destruct s as [|c s]; [done|]. simpl in Hpre.
    destruct (ascii_dec a c) as [->|]; [|done].
    destruct (IH s Hpre) as [rest ->]. by exists rest.
Qed.

Lemma split_skip (sep t rest cur : string) :
  Py.split_from sep (String.length t) cur (t +:+ rest) = Py.split_from sep 0 cur rest.
Proof.
  induction t as [|c t IH]; [by rewrite str_app_nil_l|].
  rewrite str_app_cons. simpl. exact IH.
Qed.

Lemma joined_tail_nonempty (sep : string) (l : list string) :
  l <> [] -> joined_tail sep l = sep +:+ Py.join sep l.
Proof. destruct l as [|x l]; [done|]. intros _. by rewrite join_cons. Qed.

Lemma join_split_from (a : ascii) (sep' : string) (n : nat) (s cur : string) :
  (String.length s <= n)%nat ->
  Py.join (String a sep') (Py.split_from (String a sep') 0 cur s) = cur +:+ s.
Proof.
  revert s cur. induction n as [|n IH]; intros s cur Hn.
  - destruct s; [|simpl in Hn; lia]. simpl. by rewrite str_app_nil_r.
  - destruct s as [|c s]; [simpl; by rewrite str_app_nil_r|].
    cbn [Py.split_from].
    destruct (String.prefix (String a sep') (String c s)) eqn:Hpre.
    + apply prefix_split in Hpre as [rest Heq].
      rewrite str_app_cons in Heq. injection Heq as -> ->.
      replace (String.length (String a sep') - 1)%nat with (String.length sep')
        by (simpl; lia).
      rewrite split_skip.
      rewrite join_cons, joined_tail_nonempty by apply split_from_nonempty.
      rewrite IH.
      * by rewrite str_app_nil_l, <- str_app_cons.
      * simpl in Hn. pose proof (str_len_app sep' rest) as Hl.
        unfold Py.str_len in Hl. lia.
    + rewrite IH by (simpl in Hn; lia).
      by rewrite str_app_assoc.
Qed.

(** X27: the split of the text into paragraphs loses nothing: the
    paragraphs joined by blank lines are the text. *)
Theorem paragraphs_rejoin (content : string) :
  Py.join (Py.LF +:+ Py.LF) (Py.split content (Py.LF +:+ Py.LF)) = content.
Proof.
  unfold Py.split. change (Py.LF +:+ Py.LF) with (String "010" Py.LF).
  by rewrite (join_split_from _ _ (String.length content)), str_app_nil_l.
Qed.

Lemma groups_concat {A} (l : list A) (st m : nat) :
  concat ((fun k : nat => take st (drop (k * st) l)) <$> seq 0 m) = take (m * st) l.
Proof.
  induction m as [|m IH]; [done|].
  rewrite seq_S, fmap_app, concat_app, IH. simpl.
  rewrite app_nil_r, take_take_drop. f_equal. lia.
Qed.

(** X28: a text without a blank line that does not fit the chunk size
    (of at least 5) goes through the word split: the chunks are groups of
    consecutive words joined by one space, every group has at least one
    and at most [chunk_size // 5] words, and the groups together are all
    the words of the text in order. *)
Theorem lite_word_split_keeps_words (content : string) (chunk_size overlap : Z) :
  Py.contains (Py.LF +:+ Py.LF) content = false ->
  5 <= chunk_size ->
  chunk_size < Py.str_len content + 2 ->
  exists groups : list (list string),
    LiteSpecsIndexer.chunk_content content chunk_size overlap
    = Py.Ok (Py.join " " <$> groups)
    /\ concat groups = Py.split_ws content
    /\ Forall (fun group => 1 <= Py.len group <= chunk_size / 5) groups.
Proof.
  intros Hno Hsize Hbig.
  assert (Hstep : 0 < chunk_size / 5) by (apply Z.div_str_pos; lia).
  set (words := Py.split_ws content).
  set (st := Z.to_nat (chunk_size / 5)).
  set (m := Z.to_nat (Py.range_len 0 (Py.len words) (chunk_size / 5))).
  exists ((fun k : nat => take st (drop (k * st) words)) <$> seq 0 m).
  split; [|split].
  - unfold LiteSpecsIndexer.chunk_content, Py.split.
    rewrite (split_without_separator _ _ _ Hno), str_app_nil_l.
    cbn [LiteSpecsIndexer.chunk_loop].
    destruct (Z.leb_spec (Py.str_len EmptyString + Py.str_len content + 2) chunk_size)
      as [Hle|_]; [unfold Py.str_len in *; simpl in *; lia|].
    cbn [Py.nonempty]. fold words. rewrite range_from_zero by done.
    cbn [Py.bind Py.nonempty app]. f_equal.
    rewrite <- !list_fmap_compose. apply list_fmap_ext. intros _ k _. simpl.
    f_equal. rewrite slice_nonneg by nia. f_equal; [nia|]. f_equal. nia.
  - rewrite groups_concat. apply take_ge.
    pose proof (range_len_spec (Py.len words) (chunk_size / 5) m Hstep) as Hm.
    fold m in Hm. unfold Py.len in *. nia.
  - apply Forall_fmap, Forall_forall. intros k Hk.
    apply elem_of_seq in Hk as [_ Hk]. simpl in Hk.
    apply (range_len_spec (Py.len words) (chunk_size / 5) k Hstep) in Hk.
    simpl. unfold Py.len in *. rewrite length_take, length_drop. nia.
Qed.

Lemma lite_word_split_keeps_words_witness :
  Py.contains (Py.LF +:+ Py.LF) "aaaa bbbb cccc dddd" = false
  /\ 5 <= 10 /\ 10 < Py.str_len "aaaa bbbb cccc dddd" + 2
  /\ exists groups : list (list string),
       LiteSpecsIndexer.chunk_content "aaaa bbbb cccc dddd" 10 200
       = Py.Ok (Py.join " " <$> groups)
       /\ concat groups = ["aaaa"; "bbbb"; "cccc"; "dddd"].
Proof.
  split; [reflexivity|]. split; [lia|]. split; [unfold Py.str_len; simpl; lia|].
  destruct (lite_word_split_keeps_words "aaaa bbbb cccc dddd" 10 200 eq_refl)
    as (groups & Heq & Hall & _); [lia|unfold Py.str_len; simpl; lia|].
  exists groups. split; [exact Heq | exact Hall].
Defined.
